(** * Task lifecycle of the text-generation queue demo

    A shallow embedding of [code_demo/settings.py], [code_demo/api_server.py]
    (class [TextGenerationProducer] and the request loop of [main]) and
    [code_demo/client_test.py] (class [TextGenerationClient] and
    [test_multiple_requests]), together with the parts of Python's [json]
    and [uuid] packages that [create_task] and [get_task_status] call.

    Python [str] values are sequences of code points, Redis is a finite map
    from keys to values with an expiry deadline, RabbitMQ is the list of
    published messages, and every method is a function in a small
    state-and-exception monad that also records the external calls made. *)

From Stdlib Require Import ZArith NArith List Lia String Ascii Decimal DecimalFacts DecimalN DecimalZ DecimalPos.
From stdpp Require Import base option list gmap.

Local Open Scope N_scope.

(** ** Python strings *)

(** A Python [str]: the sequence of its Unicode code points. *)
Definition pystr : Type := list N.

(** An ASCII literal as a Python string. *)
Definition py (s : string) : pystr :=
  map N_of_ascii (list_ascii_of_string s).

Definition QUOTE : N := 34.       (* the double quote *)
Definition BACKSLASH_CH : N := 92.
Definition SLASH : N := 47.
Definition SPACE : N := 32.
Definition TILDE : N := 126.
Definition COMMA : N := 44.
Definition COLON : N := 58.
Definition MINUS : N := 45.
Definition PLUS : N := 43.
Definition DOT : N := 46.
Definition LBRACE : N := 123.
Definition RBRACE : N := 125.
Definition LBRACKET : N := 91.
Definition RBRACKET : N := 93.
Definition ZERO : N := 48.
Definition NINE : N := 57.

(** [s.startswith(p)], returning what follows the prefix. *)
Fixpoint strip_prefix (p s : pystr) : option pystr :=
  match p, s with
  | [], _ => Some s
  | a :: p', b :: s' => if a =? b then strip_prefix p' s' else None
  | _ :: _, [] => None
  end.

Definition str_eqb (a b : pystr) : bool := bool_decide (a = b).

(** ** JSON-native Python values *)

(** A Python [float].  A finite float is represented by the decimal literal
    that denotes it, which is the text [float.__repr__] prints and [float()]
    reads; two literals of one float are not identified. *)
Inductive pyfloat : Type :=
| Finite (literal : pystr)
| PosInf
| NegInf
| NaN.

(** The Python objects [json.dumps] accepts and [json.loads] produces:
    [None], [bool], [int], [float], [str], [list], and [dict] with [str]
    keys.  A [dict] keeps its items in insertion order. *)
#[warnings="-register-all"]
Inductive value : Type :=
| VNone
| VBool (b : bool)
| VInt (z : Z)
| VFloat (f : pyfloat)
| VStr (s : pystr)
| VList (items : list value)
| VDict (items : list (pystr * value)).

(** [d[key] = v] on the items of a dict: an existing key keeps its place. *)
Fixpoint dict_set (d : list (pystr * value)) (key : pystr) (v : value)
  : list (pystr * value) :=
  match d with
  | [] => [(key, v)]
  | (k, x) :: d' =>
      if str_eqb k key then (k, v) :: d' else (k, x) :: dict_set d' key v
  end.

(** [dict(pairs)]. *)
Definition dict_of_pairs (pairs : list (pystr * value)) : list (pystr * value) :=
  fold_left (fun d kv => dict_set d (fst kv) (snd kv)) pairs [].

(** [d.get(key)] on the items of a dict. *)
Fixpoint dict_lookup (d : list (pystr * value)) (key : pystr) : option value :=
  match d with
  | [] => None
  | (k, x) :: d' => if str_eqb k key then Some x else dict_lookup d' key
  end.

(** [key in o] for an arbitrary object; only a dict has keys here. *)
Definition has_key (o : value) (key : pystr) : bool :=
  match o with
  | VDict d => bool_decide (is_Some (dict_lookup d key))
  | _ => false
  end.

(** [o == s] for a [str] constant [s]. *)
Definition eq_str (o : value) (s : pystr) : bool :=
  match o with
  | VStr t => str_eqb t s
  | _ => false
  end.

(** ** json/encoder.py *)

Module Encoder.

Definition hexdigit (d : N) : N :=
  if d <? 10 then ZERO + d else 87 + d.   (* 0-9, a-f *)

(** ['\\u{0:04x}'.format(n)] for [n < 0x10000]. *)
Definition u_escape (n : N) : pystr :=
  [BACKSLASH_CH; 117;
   hexdigit (N.shiftr n 12 mod 16); hexdigit (N.shiftr n 8 mod 16);
   hexdigit (N.shiftr n 4 mod 16); hexdigit (n mod 16)].

(** The [replace] callback of [py_encode_basestring_ascii], applied to one
    character: [ESCAPE_ASCII] matches the backslash, the quote and all that
    is not between space and tilde; [ESCAPE_DCT] has the short escapes. *)
Definition replace (c : N) : pystr :=
  if c =? BACKSLASH_CH then [BACKSLASH_CH; BACKSLASH_CH]
  else if c =? QUOTE then [BACKSLASH_CH; QUOTE]
  else if (SPACE <=? c) && (c <=? TILDE) then [c]
  else if c =? 8 then [BACKSLASH_CH; 98]
  else if c =? 12 then [BACKSLASH_CH; 102]
  else if c =? 10 then [BACKSLASH_CH; 110]
  else if c =? 13 then [BACKSLASH_CH; 114]
  else if c =? 9 then [BACKSLASH_CH; 116]
  else if c <? 0x10000 then u_escape c
  else
    let n := c - 0x10000 in
    let s1 := N.lor 0xd800 (N.land (N.shiftr n 10) 0x3ff) in
    let s2 := N.lor 0xdc00 (N.land n 0x3ff) in
    u_escape s1 ++ u_escape s2.

Definition escape_ascii (s : pystr) : pystr := flat_map replace s.

Definition encode_basestring_ascii (s : pystr) : pystr :=
  QUOTE :: escape_ascii s ++ [QUOTE].

Fixpoint uint_chars (u : Decimal.uint) : pystr :=
  match u with
  | Nil => []
  | D0 u => 48 :: uint_chars u
  | D1 u => 49 :: uint_chars u
  | D2 u => 50 :: uint_chars u
  | D3 u => 51 :: uint_chars u
  | D4 u => 52 :: uint_chars u
  | D5 u => 53 :: uint_chars u
  | D6 u => 54 :: uint_chars u
  | D7 u => 55 :: uint_chars u
  | D8 u => 56 :: uint_chars u
  | D9 u => 57 :: uint_chars u
  end.

(** [int.__repr__]. *)
Definition intstr (z : Z) : pystr :=
  match Z.to_int z with
  | Pos u => uint_chars u
  | Neg u => MINUS :: uint_chars u
  end.

(** [floatstr] with [allow_nan=True]. *)
Definition floatstr (f : pyfloat) : pystr :=
  match f with
  | NaN => py "NaN"
  | PosInf => py "Infinity"
  | NegInf => py "-Infinity"
  | Finite literal => literal
  end.

Definition item_separator : pystr := py ", ".
Definition key_separator : pystr := py ": ".

(** [_iterencode] with its helpers [_iterencode_list] and
    [_iterencode_dict], for [indent=None], [sort_keys=False]; the chunks
    are joined as [JSONEncoder.encode] does. *)
Fixpoint iterencode (o : value) : pystr :=
  match o with
  | VStr s => encode_basestring_ascii s
  | VNone => py "null"
  | VBool true => py "true"
  | VBool false => py "false"
  | VInt z => intstr z
  | VFloat f => floatstr f
  | VList lst =>
      match lst with
      | [] => py "[]"
      | v :: rest =>
          LBRACKET :: iterencode v ++
          (fix others (l : list value) : pystr :=
             match l with
             | [] => []
             | x :: l' => item_separator ++ iterencode x ++ others l'
             end) rest ++ [RBRACKET]
      end
  | VDict dct =>
      match dct with
      | [] => py "{}"
      | (k, v) :: rest =>
          LBRACE :: encode_basestring_ascii k ++ key_separator ++ iterencode v ++
          (fix others (l : list (pystr * value)) : pystr :=
             match l with
             | [] => []
             | (k', x) :: l' =>
                 item_separator ++ encode_basestring_ascii k' ++
                 key_separator ++ iterencode x ++ others l'
             end) rest ++ [RBRACE]
      end
  end.

End Encoder.

(** [json.dumps(obj)] with the default arguments. *)
Definition json_dumps (obj : value) : pystr := Encoder.iterencode obj.

(** ** json/scanner.py and json/decoder.py *)

Module Decoder.

(** [WHITESPACE_STR]. *)
Definition is_ws (c : N) : bool :=
  (c =? SPACE) || (c =? 9) || (c =? 10) || (c =? 13).

(** [WHITESPACE.match(s, end).end()]: skip the blanks. *)
Fixpoint skip_ws (s : pystr) : pystr :=
  match s with
  | c :: s' => if is_ws c then skip_ws s' else s
  | [] => []
  end.

Definition is_digit (c : N) : bool := (ZERO <=? c) && (c <=? NINE).

Definition hexval (c : N) : option N :=
  if is_digit c then Some (c - ZERO)
  else if (97 <=? c) && (c <=? 102) then Some (c - 87)
  else if (65 <=? c) && (c <=? 70) then Some (c - 55)
  else None.

(** [_decode_uXXXX]: the four hexadecimal digits after the [u]. *)
Definition decode_uXXXX (s : pystr) : option (N * pystr) :=
  match s with
  | a :: b :: c :: d :: rest =>
      match hexval a, hexval b, hexval c, hexval d with
      | Some x3, Some x2, Some x1, Some x0 =>
          Some (4096 * x3 + 256 * x2 + 16 * x1 + x0, rest)
      | _, _, _, _ => None
      end
  | _ => None
  end.

(** The table [BACKSLASH]. *)
Definition backslash (esc : N) : option N :=
  if esc =? QUOTE then Some QUOTE
  else if esc =? BACKSLASH_CH then Some BACKSLASH_CH
  else if esc =? SLASH then Some SLASH
  else if esc =? 98 then Some 8
  else if esc =? 102 then Some 12
  else if esc =? 110 then Some 10
  else if esc =? 114 then Some 13
  else if esc =? 116 then Some 9
  else None.

(** [scanstring(s, end, strict=True)]: [s] starts after the opening quote;
    the result is the decoded string and what follows the closing quote.
    [None] stands for a raised [JSONDecodeError].  Every turn of the loop
    consumes a character, so [length s] turns are enough. *)
Fixpoint scanstring (fuel : nat) (s : pystr) (chunks : pystr)
  : option (pystr * pystr) :=
  match fuel with
  | O => None
  | S fuel =>
      match s with
      | [] => None                               (* unterminated string *)
      | c :: s1 =>
          if c =? QUOTE then Some (chunks, s1)
          else if c =? BACKSLASH_CH then
            match s1 with
            | [] => None                         (* unterminated string *)
            | esc :: s2 =>
                if esc =? 117 then
                  match decode_uXXXX s2 with
                  | None => None
                  | Some (uni, s3) =>
                      if (0xd800 <=? uni) && (uni <=? 0xdbff) then
                        match strip_prefix [BACKSLASH_CH; 117] s3 with
                        | Some s4 =>
                            match decode_uXXXX s4 with
                            | None => None
                            | Some (uni2, s5) =>
                                if (0xdc00 <=? uni2) && (uni2 <=? 0xdfff) then
                                  scanstring fuel s5
                                    (chunks ++
                                     [0x10000 + N.lor (N.shiftl (uni - 0xd800) 10)
                                                      (uni2 - 0xdc00)])
                                else scanstring fuel s3 (chunks ++ [uni])
                            end
                        | None => scanstring fuel s3 (chunks ++ [uni])
                        end
                      else scanstring fuel s3 (chunks ++ [uni])
                  end
                else
                  match backslash esc with
                  | None => None                 (* invalid escape *)
                  | Some char => scanstring fuel s2 (chunks ++ [char])
                  end
            end
          else if c <? SPACE then None           (* control character *)
          else scanstring fuel s1 (chunks ++ [c])
      end
  end.

(** The longest prefix of decimal digits, and the rest. *)
Fixpoint span_digits (s : pystr) : pystr * pystr :=
  match s with
  | c :: s' =>
      if is_digit c then
        let (ds, rest) := span_digits s' in (c :: ds, rest)
      else ([], s)
  | [] => ([], [])
  end.

(** [NUMBER_RE], group by group.  The integer part: an optional minus,
    then a zero or a digit string that does not start with a zero. *)
Definition match_integer (s : pystr) : option (pystr * pystr) :=
  let (sign, s0) :=
    match s with
    | c :: s' => if c =? MINUS then ([MINUS], s') else ([], s)
    | [] => ([], s)
    end in
  match s0 with
  | c :: s' =>
      if c =? ZERO then Some (sign ++ [ZERO], s')
      else if is_digit c then
        let (ds, rest) := span_digits s0 in Some (sign ++ ds, rest)
      else None
  | [] => None
  end.

(** The optional fraction: a dot and at least one digit. *)
Definition match_frac (s : pystr) : option pystr * pystr :=
  match s with
  | c :: s' =>
      if c =? DOT then
        match span_digits s' with
        | ([], _) => (None, s)
        | (ds, rest) => (Some (DOT :: ds), rest)
        end
      else (None, s)
  | [] => (None, s)
  end.

(** The optional exponent: [e] or [E], an optional sign, at least one
    digit. *)
Definition match_exp (s : pystr) : option pystr * pystr :=
  match s with
  | c :: s' =>
      if (c =? 101) || (c =? 69) then
        let (esign, s'') :=
          match s' with
          | d :: r => if (d =? MINUS) || (d =? PLUS) then ([d], r) else ([], s')
          | [] => ([], s')
          end in
        match span_digits s'' with
        | ([], _) => (None, s)
        | (ds, rest) => (Some (c :: esign ++ ds), rest)
        end
      else (None, s)
  | [] => (None, s)
  end.

(** [NUMBER_RE.match]: the groups [integer], [frac], [exp] and the text
    after the match. *)
Definition match_number (s : pystr)
  : option (pystr * option pystr * option pystr * pystr) :=
  match match_integer s with
  | None => None
  | Some (integer, s1) =>
      let (frac, s2) := match_frac s1 in
      let (exp, s3) := match_exp s2 in
      Some (integer, frac, exp, s3)
  end.

Fixpoint chars_uint (s : pystr) : Decimal.uint :=
  match s with
  | [] => Nil
  | c :: s' =>
      let u := chars_uint s' in
      match c with
      | 48 => D0 u | 49 => D1 u | 50 => D2 u | 51 => D3 u | 52 => D4 u
      | 53 => D5 u | 54 => D6 u | 55 => D7 u | 56 => D8 u | _ => D9 u
      end
  end.

(** [int(integer)] on a matched [integer] group. *)
Definition parse_int (integer : pystr) : Z :=
  match integer with
  | c :: ds =>
      if c =? MINUS then Z.of_int (Neg (chars_uint ds))
      else Z.of_int (Pos (chars_uint integer))
  | [] => 0%Z
  end.

(** [float(text)] on a matched number; see [pyfloat]. *)
Definition parse_float (text : pystr) : pyfloat := Finite text.

Definition opt_str (o : option pystr) : pystr := default [] o.

(** [_scan_once], [JSONObject] and [JSONArray].  [None] stands for a
    raised [JSONDecodeError]; the while loops of [JSONObject] and
    [JSONArray] are the functions [object_items] and [array_items].  Each
    call consumes a character before it recurses. *)
Fixpoint scan_once (fuel : nat) (s : pystr) : option (value * pystr) :=
  match fuel with
  | O => None
  | S fuel =>
      match s with
      | [] => None                                    (* StopIteration *)
      | nextchar :: s1 =>
          if nextchar =? QUOTE then
            match scanstring (length s1) s1 [] with
            | Some (str, rest) => Some (VStr str, rest)
            | None => None
            end
          else if nextchar =? LBRACE then
            match skip_ws s1 with
            | c :: s2 =>
                if c =? RBRACE then Some (VDict [], s2)
                else if c =? QUOTE then object_items fuel s2 []
                else None
            | [] => None
            end
          else if nextchar =? LBRACKET then
            match skip_ws s1 with
            | c :: s2 =>
                if c =? RBRACKET then Some (VList [], s2)
                else array_items fuel (c :: s2) []
            | [] => array_items fuel [] []
            end
          else
            match strip_prefix (py "null") s, strip_prefix (py "true") s,
                  strip_prefix (py "false") s with
            | Some rest, _, _ => Some (VNone, rest)
            | _, Some rest, _ => Some (VBool true, rest)
            | _, _, Some rest => Some (VBool false, rest)
            | None, None, None =>
                match match_number s with
                | Some (integer, frac, exp, rest) =>
                    match frac, exp with
                    | None, None => Some (VInt (parse_int integer), rest)
                    | _, _ =>
                        Some (VFloat (parse_float
                                (integer ++ opt_str frac ++ opt_str exp)), rest)
                    end
                | None =>
                    match strip_prefix (py "NaN") s,
                          strip_prefix (py "Infinity") s,
                          strip_prefix (py "-Infinity") s with
                    | Some rest, _, _ => Some (VFloat NaN, rest)
                    | _, Some rest, _ => Some (VFloat PosInf, rest)
                    | _, _, Some rest => Some (VFloat NegInf, rest)
                    | None, None, None => None
                    end
                end
            end
      end
  end
with object_items (fuel : nat) (s : pystr) (pairs : list (pystr * value))
  : option (value * pystr) :=
  match fuel with
  | O => None
  | S fuel =>
      match scanstring (length s) s [] with
      | None => None
      | Some (key, s1) =>
          match skip_ws s1 with
          | c :: s2 =>
              if c =? COLON then
                match scan_once fuel (skip_ws s2) with
                | None => None
                | Some (v, s3) =>
                    let pairs := pairs ++ [(key, v)] in
                    match skip_ws s3 with
                    | d :: s4 =>
                        if d =? RBRACE then Some (VDict (dict_of_pairs pairs), s4)
                        else if d =? COMMA then
                          match skip_ws s4 with
                          | q :: s5 =>
                              if q =? QUOTE then object_items fuel s5 pairs
                              else None
                          | [] => None
                          end
                        else None
                    | [] => None
                    end
                end
              else None
          | [] => None
          end
      end
  end
with array_items (fuel : nat) (s : pystr) (values : list value)
  : option (value * pystr) :=
  match fuel with
  | O => None
  | S fuel =>
      match scan_once fuel s with
      | None => None
      | Some (v, s1) =>
          let values := values ++ [v] in
          match skip_ws s1 with
          | c :: s2 =>
              if c =? RBRACKET then Some (VList values, s2)
              else if c =? COMMA then array_items fuel (skip_ws s2) values
              else None
          | [] => None
          end
      end
  end.

(** [JSONDecoder.decode]: one value between optional blanks, and nothing
    after it. *)
Definition decode (s : pystr) : option value :=
  match scan_once (S (length s)) (skip_ws s) with
  | Some (obj, rest) =>
      match skip_ws rest with
      | [] => Some obj
      | _ :: _ => None                                (* extra data *)
      end
  | None => None
  end.

End Decoder.

(** [json.loads(s)] for a [str] argument; [None] stands for a raised
    [JSONDecodeError]. *)
Definition json_loads (s : pystr) : option value :=
  match s with
  | 0xfeff :: _ => None                                 (* unexpected BOM *)
  | _ => Decoder.decode s
  end.

(** ** The world outside the process *)

(** A raised exception: its class and [str(e)]. *)
Inductive exn : Type :=
| Exception (class_name : pystr) (message : pystr).

Definition exn_str (e : exn) : pystr :=
  match e with Exception _ message => message end.

(** A message handed to [basic_publish], with its [BasicProperties]. *)
Record Message : Type := {
  exchange : pystr;
  routing_key : pystr;
  body : pystr;
  delivery_mode : Z;
  content_type : pystr;
  message_id : pystr
}.

(** The two servers.  A Redis entry is a value with the server time at which
    it expires; a fault, while present, makes every command of that server
    raise. *)
Record Backend : Type := {
  redis_data : gmap pystr (pystr * Z);
  redis_now : Z;
  redis_fault : option exn;
  published : list Message;
  channel_fault : option exn
}.

(** The servers together with what the process cannot determine: the bytes
    [os.urandom] will deliver, the readings of [time.time], and what the
    other processes (workers, other clients, operators) do to the servers
    while this one sleeps. *)
Record World : Type := {
  backend : Backend;
  urandom : nat -> N;
  urandom_calls : nat;
  clock : nat -> pyfloat;
  clock_calls : nat;
  others : nat -> Backend -> Backend;
  sleeps : nat
}.

Definition with_backend (b : Backend) (w : World) : World :=
  {| backend := b; urandom := urandom w; urandom_calls := urandom_calls w;
     clock := clock w; clock_calls := clock_calls w;
     others := others w; sleeps := sleeps w |}.

Definition with_redis_data (d : gmap pystr (pystr * Z)) (b : Backend) : Backend :=
  {| redis_data := d; redis_now := redis_now b; redis_fault := redis_fault b;
     published := published b; channel_fault := channel_fault b |}.

Definition with_published (q : list Message) (b : Backend) : Backend :=
  {| redis_data := redis_data b; redis_now := redis_now b;
     redis_fault := redis_fault b; published := q;
     channel_fault := channel_fault b |}.

Definition with_redis_now (t : Z) (b : Backend) : Backend :=
  {| redis_data := redis_data b; redis_now := t; redis_fault := redis_fault b;
     published := published b; channel_fault := channel_fault b |}.

(** What a [GET] sees: the value, unless the key is absent or expired. *)
Definition redis_lookup (b : Backend) (key : pystr) : option pystr :=
  match redis_data b !! key with
  | Some (v, deadline) => if (redis_now b <? deadline)%Z then Some v else None
  | None => None
  end.

(** The calls the process makes to the servers and to the scheduler. *)
Inductive Call : Type :=
| CallSetex (name : pystr) (time : Z) (value : pystr)
| CallGet (name : pystr)
| CallPublish (msg : Message)
| CallSleep (secs : Z).

(** ** Computations: state, exceptions, and the calls made *)

Inductive result (A : Type) : Type :=
| Return (a : A)
| Raise (e : exn).
Arguments Return {A} a.
Arguments Raise {A} e.

Record outcome (A : Type) : Type := Outcome {
  res : result A;
  final : World;
  trace : list Call
}.
Arguments Outcome {A} res final trace.
Arguments res {A} o.
Arguments final {A} o.
Arguments trace {A} o.

Definition M (A : Type) : Type := World -> outcome A.

Definition ret {A} (a : A) : M A := fun w => Outcome (Return a) w [].

Definition raise {A} (e : exn) : M A := fun w => Outcome (Raise e) w [].

Definition bind {A B} (m : M A) (k : A -> M B) : M B := fun w =>
  let o := m w in
  match res o with
  | Return a =>
      let o' := k a (final o) in
      Outcome (res o') (final o') (trace o ++ trace o')
  | Raise e => Outcome (Raise e) (final o) (trace o)
  end.

(** [try: body / except Exception as e: handler]. *)
Definition try_except {A} (body : M A) (handler : exn -> M A) : M A := fun w =>
  let o := body w in
  match res o with
  | Return _ => o
  | Raise e =>
      let o' := handler e (final o) in
      Outcome (res o') (final o') (trace o ++ trace o')
  end.

#[global] Instance M_ret : MRet M := @ret.
#[global] Instance M_bind : MBind M := fun A B k m => bind m k.

(** *** redis.Redis *)

Definition setex (name : pystr) (time : Z) (value : pystr) : M unit := fun w =>
  let b := backend w in
  match redis_fault b with
  | Some e => Outcome (Raise e) w [CallSetex name time value]
  | None =>
      if (time <=? 0)%Z then
        Outcome (Raise (Exception (py "ResponseError")
                          (py "invalid expire time in 'setex' command")))
                w [CallSetex name time value]
      else
        Outcome (Return tt)
                (with_backend
                   (with_redis_data
                      (<[name := (value, (redis_now b + time)%Z)]> (redis_data b)) b) w)
                [CallSetex name time value]
  end.

(** [get] with [decode_responses=True]: a [str], or [None] on a miss. *)
Definition get (name : pystr) : M (option pystr) := fun w =>
  match redis_fault (backend w) with
  | Some e => Outcome (Raise e) w [CallGet name]
  | None => Outcome (Return (redis_lookup (backend w) name)) w [CallGet name]
  end.

(** *** pika channel *)

Definition basic_publish (msg : Message) : M unit := fun w =>
  let b := backend w in
  match channel_fault b with
  | Some e => Outcome (Raise e) w [CallPublish msg]
  | None =>
      Outcome (Return tt) (with_backend (with_published (published b ++ [msg]) b) w)
              [CallPublish msg]
  end.

(** *** uuid, time *)

(** [UUID(bytes=..., version=4).int], the 16 random bytes read as a number. *)
Definition uuid_int (random : N) : N :=
  let int := random mod 2 ^ 128 in
  let int := N.ldiff int (N.shiftl 0xc000 48) in
  let int := N.lor int (N.shiftl 0x8000 48) in
  let int := N.ldiff int (N.shiftl 0xf000 64) in
  N.lor int (N.shiftl 4 76).

(** ['%032x' % int]. *)
Definition hex32 (int : N) : pystr :=
  map (fun i => Encoder.hexdigit (N.shiftr int (4 * N.of_nat i) mod 16))
      (rev (seq 0 32)).

(** [UUID.__str__]. *)
Definition uuid_str (int : N) : pystr :=
  let hex := hex32 int in
  take 8 hex ++ [MINUS] ++ take 4 (drop 8 hex) ++ [MINUS] ++
  take 4 (drop 12 hex) ++ [MINUS] ++ take 4 (drop 16 hex) ++ [MINUS] ++
  drop 20 hex.

(** [str(uuid.uuid4())]. *)
Definition uuid4_str : M pystr := fun w =>
  Outcome (Return (uuid_str (uuid_int (urandom w (urandom_calls w)))))
          {| backend := backend w; urandom := urandom w;
             urandom_calls := S (urandom_calls w);
             clock := clock w; clock_calls := clock_calls w;
             others := others w; sleeps := sleeps w |}
          [].

(** [time.time()]. *)
Definition time_time : M pyfloat := fun w =>
  Outcome (Return (clock w (clock_calls w)))
          {| backend := backend w; urandom := urandom w;
             urandom_calls := urandom_calls w;
             clock := clock w; clock_calls := S (clock_calls w);
             others := others w; sleeps := sleeps w |}
          [].

(** [time.sleep(secs)], for a whole number of seconds: the server clock
    advances, and the other processes take their turn. *)
Definition time_sleep (secs : Z) : M unit := fun w =>
  if (secs <? 0)%Z then
    Outcome (Raise (Exception (py "ValueError")
                      (py "sleep length must be non-negative")))
            w [CallSleep secs]
  else
    Outcome (Return tt)
            {| backend :=
                 others w (sleeps w)
                        (with_redis_now (redis_now (backend w) + secs)%Z (backend w));
               urandom := urandom w; urandom_calls := urandom_calls w;
               clock := clock w; clock_calls := clock_calls w;
               others := others w; sleeps := S (sleeps w) |}
            [CallSleep secs].

(** [json.loads] as a computation. *)
Definition loads (s : pystr) : M value :=
  match json_loads s with
  | Some v => ret v
  | None => raise (Exception (py "JSONDecodeError") (py "invalid JSON document"))
  end.

(** [o.get(key, default)]: only a dict has the method. *)
Definition method_get (o : value) (key : pystr) (default : value) : M value :=
  match o with
  | VDict d =>
      match dict_lookup d key with
      | Some v => ret v
      | None => ret default
      end
  | _ => raise (Exception (py "AttributeError")
                  (py "object has no attribute 'get'"))
  end.

(** ** settings.py *)

(** The settings read from the environment that the task code uses. *)
Record Settings : Type := {
  TASK_TTL : Z;
  TEXT_GENERATION_QUEUE : pystr
}.

(** The defaults, used when the environment variables are unset. *)
Definition default_settings : Settings :=
  {| TASK_TTL := 3600; TEXT_GENERATION_QUEUE := py "text_generation_tasks" |}.

Definition TASK_PREFIX : pystr := py "task:".
Definition STATUS_PENDING : pystr := py "PENDING".
Definition STATUS_PROCESSING : pystr := py "PROCESSING".
Definition STATUS_COMPLETED : pystr := py "COMPLETED".
Definition STATUS_FAILED : pystr := py "FAILED".

Definition get_task_key (task_id : pystr) : pystr := TASK_PREFIX ++ task_id.

(** ** api_server.py: TextGenerationProducer *)

Section TextGenerationProducer.

Variable settings : Settings.

(** The dict that [create_task] builds; [metadata or {}] is the items of
    [metadata] whether it is [None], empty or not. *)
Definition task_payload (task_id prompt : pystr)
    (metadata : option (list (pystr * value))) (created_at : pyfloat) : value :=
  VDict [(py "task_id", VStr task_id);
         (py "prompt", VStr prompt);
         (py "metadata", VDict (default [] metadata));
         (py "created_at", VFloat created_at);
         (py "status", VStr STATUS_PENDING)].

(** [create_task]; console output is not modelled. *)
Definition create_task (prompt : pystr)
    (metadata : option (list (pystr * value))) : M pystr :=
  try_except
    (task_id ← uuid4_str;
     created_at ← time_time;
     let payload := task_payload task_id prompt metadata created_at in
     let redis_key := get_task_key task_id in
     setex redis_key (TASK_TTL settings) (json_dumps payload);;
     basic_publish
          {| exchange := [];
             routing_key := TEXT_GENERATION_QUEUE settings;
             body := json_dumps payload;
             delivery_mode := 2;
             content_type := py "application/json";
             message_id := task_id |};;
     ret task_id)
    (fun e => raise e).

Definition not_found (task_id : pystr) : value :=
  VDict [(py "task_id", VStr task_id);
         (py "status", VStr (py "NOT_FOUND"));
         (py "error", VStr (py "Task not found or expired"))].

Definition store_error (task_id : pystr) (e : exn) : value :=
  VDict [(py "task_id", VStr task_id);
         (py "status", VStr (py "ERROR"));
         (py "error", VStr (exn_str e))].

(** [get_task_status]; [not task_data] holds for [None] and for the empty
    string. *)
Definition get_task_status (task_id : pystr) : M value :=
  try_except
    (let redis_key := get_task_key task_id in
     task_data ← get redis_key;
     match task_data with
     | None | Some [] => ret (not_found task_id)
     | Some text => loads text
     end)
    (fun e => ret (store_error task_id e)).

End TextGenerationProducer.

(** ** client_test.py: TextGenerationClient *)

Section TextGenerationClient.

Variable settings : Settings.

Definition submit_request (prompt : pystr)
    (metadata : option (list (pystr * value))) : M pystr :=
  create_task settings prompt metadata.

(** The [for attempt in range(1, max_attempts + 1)] loop of [poll_result],
    with [remaining] turns left; falling out of the loop returns [None]. *)
Fixpoint poll_loop (remaining : nat) (task_id : pystr) (poll_interval : Z)
  : M (option value) :=
  match remaining with
  | O => ret None
  | S remaining =>
      task_data ← get_task_status task_id;
      status ← method_get task_data (py "status") (VStr (py "UNKNOWN"));
      if eq_str status STATUS_COMPLETED then ret (Some task_data)
      else if eq_str status STATUS_FAILED then ret (Some task_data)
      else if eq_str status (py "NOT_FOUND") || eq_str status (py "ERROR")
      then ret None
      else
        time_sleep poll_interval;;
        poll_loop remaining task_id poll_interval
  end.

(** [poll_result]; [verbose] only selects console output. *)
Definition poll_result (task_id : pystr) (poll_interval : Z)
    (max_attempts : Z) (verbose : bool) : M (option value) :=
  poll_loop (Z.to_nat max_attempts) task_id poll_interval.

Definition submit_and_wait (prompt : pystr)
    (metadata : option (list (pystr * value))) (poll_interval : Z)
    (max_attempts : Z) : M (option value) :=
  task_id ← submit_request prompt metadata;
  result ← poll_result task_id poll_interval max_attempts true;
  ret result.

End TextGenerationClient.

(** ** Well-formed values *)

Definition is_high_surrogate (c : N) : bool := (0xd800 <=? c) && (c <=? 0xdbff).
Definition is_low_surrogate (c : N) : bool := (0xdc00 <=? c) && (c <=? 0xdfff).

(** Text: code points below [0x110000], and no high surrogate directly
    followed by a low surrogate (such a pair is not a pair of characters but
    the UTF-16 form of one). *)
Fixpoint text_ok (s : pystr) : bool :=
  match s with
  | [] => true
  | c :: s' =>
      (c <? 0x110000) &&
      negb (is_high_surrogate c &&
            match s' with d :: _ => is_low_surrogate d | [] => false end) &&
      text_ok s'
  end.

(** The literal of a finite float: a number with a fraction or an exponent,
    as [float.__repr__] prints it. *)
Definition float_literal (literal : pystr) : bool :=
  match Decoder.match_number literal with
  | Some (_, Some _, _, []) => true
  | Some (_, None, Some _, []) => true
  | _ => false
  end.

Definition float_ok (f : pyfloat) : bool :=
  match f with
  | Finite literal => float_literal literal
  | _ => true
  end.

(** Values whose strings are text, whose finite floats are float literals
    and whose dicts have each key once. *)
Fixpoint wf_value (v : value) : bool :=
  match v with
  | VStr s => text_ok s
  | VFloat f => float_ok f
  | VList l => forallb wf_value l
  | VDict d =>
      bool_decide (NoDup (map fst d)) &&
      forallb (fun kv => match kv with (k, x) => text_ok k && wf_value x end) d
  | _ => true
  end.

(** ** The record as stored *)

(** The [status] field of the record stored for a task, if the key is live
    and holds a JSON object. *)
Definition stored_status (b : Backend) (task_id : pystr) : option value :=
  match redis_lookup b (get_task_key task_id) with
  | Some text =>
      match json_loads text with
      | Some (VDict d) => dict_lookup d (py "status")
      | _ => None
      end
  | None => None
  end.

Definition pending_now (b : Backend) (task_id : pystr) : bool :=
  bool_decide (redis_fault b = None) &&
  match stored_status b task_id with
  | Some st => eq_str st STATUS_PENDING
  | None => false
  end.

(** The stored status is [PENDING] at each of the next [n] polling instants,
    which are [poll_interval] apart. *)
Fixpoint stays_pending (n : nat) (task_id : pystr) (poll_interval : Z)
    (w : World) : bool :=
  match n with
  | O => true
  | S n' =>
      pending_now (backend w) task_id &&
      stays_pending n' task_id poll_interval (final (time_sleep poll_interval w))
  end.

(** The world after [n] calls of [time.sleep(secs)] and nothing else. *)
Fixpoint after_sleeps (n : nat) (secs : Z) (w : World) : World :=
  match n with
  | O => w
  | S n' => after_sleeps n' secs (final (time_sleep secs w))
  end.

(** ** Histories *)

(** The worlds that arise from an empty Redis by [create_task] calls and by
    steps of the other processes that add no key (they may rewrite or drop
    records, consume the queue, let time pass, fail and recover).  The two
    lists hold the task ids that [create_task] returned and the ids that it
    generated, whether or not the call returned. *)
Inductive history (settings : Settings) : World -> list pystr -> list pystr -> Prop :=
| history_start w :
    redis_data (backend w) = ∅ ->
    history settings w [] []
| history_create w returned generated prompt metadata :
    history settings w returned generated ->
    history settings
      (final (create_task settings prompt metadata w))
      (match res (create_task settings prompt metadata w) with
       | Return task_id => task_id :: returned
       | Raise _ => returned
       end)
      (uuid_str (uuid_int (urandom w (urandom_calls w))) :: generated)
| history_others w returned generated b :
    history settings w returned generated ->
    dom (redis_data b) ⊆ dom (redis_data (backend w)) ->
    history settings (with_backend b w) returned generated.

(** ** Worker-side transitions *)

Module LifecycleManager.

Inductive Status : Type := PENDING | PROCESSING | COMPLETED | FAILED.

(** The Task record of the data model, decoded. *)
Record Task : Type := {
  task_id : pystr;
  prompt : pystr;
  metadata : list (pystr * value);
  status : Status;
  created_at : pyfloat;
  completed_at : option pyfloat;
  result : option pystr;
  error : option pystr
}.


Inductive Reply : Type := Ok | NotFound.

Definition with_status (s : Status) (t : Task) : Task :=
  {| task_id := task_id t; prompt := prompt t; metadata := metadata t;
     status := s; created_at := created_at t;
     completed_at := completed_at t; result := result t; error := error t |}.

(** Modelled from the spec: [mark_processing] is not in the sources (no
    worker is).  After the design of section 4.1: it is invoked by a worker
    that claimed the task, moves the record to PROCESSING by reading,
    modifying and rewriting the whole record, takes no lock and detects no
    conflict (the last writer wins), and does nothing when the record is
    missing.  The Status Store is the map from task ids to live records;
    an expired record is an absent one. *)
Definition mark_processing (id : pystr) (store : gmap pystr Task)
  : Reply * gmap pystr Task :=
  match store !! id with
  | None => (NotFound, store)
  | Some t => (Ok, <[id := with_status PROCESSING t]> store)
  end.

(** Modelled from the spec: [mark_completed] is not in the sources.  It
    sets the terminal status, [completed_at] and [result] and rewrites the
    whole record; a record that is already terminal is overwritten (an
    idempotent overwrite, the last writer wins). *)
Definition mark_completed (id : pystr) (output : pystr) (now : pyfloat)
    (store : gmap pystr Task) : Reply * gmap pystr Task :=
  match store !! id with
  | None => (NotFound, store)
  | Some t =>
      (Ok, <[id := {| task_id := task_id t; prompt := prompt t;
                      metadata := metadata t; status := COMPLETED;
                      created_at := created_at t; completed_at := Some now;
                      result := Some output; error := error t |}]> store)
  end.

(** Modelled from the spec: [mark_failed] is not in the sources.  As
    [mark_completed], with FAILED and the [error] field. *)
Definition mark_failed (id : pystr) (description : pystr) (now : pyfloat)
    (store : gmap pystr Task) : Reply * gmap pystr Task :=
  match store !! id with
  | None => (NotFound, store)
  | Some t =>
      (Ok, <[id := {| task_id := task_id t; prompt := prompt t;
                      metadata := metadata t; status := FAILED;
                      created_at := created_at t; completed_at := Some now;
                      result := result t; error := Some description |}]> store)
  end.

(** One call of a worker. *)
Inductive Transition : Type :=
| MarkProcessing (id : pystr)
| MarkCompleted (id : pystr) (output : pystr) (now : pyfloat)
| MarkFailed (id : pystr) (description : pystr) (now : pyfloat).

Definition apply (store : gmap pystr Task) (c : Transition) : gmap pystr Task :=
  match c with
  | MarkProcessing id => snd (mark_processing id store)
  | MarkCompleted id output now => snd (mark_completed id output now store)
  | MarkFailed id description now => snd (mark_failed id description now store)
  end.




End LifecycleManager.

(** ** Notions used in the proofs *)

(** *** Reading back what the encoder wrote *)

Module JsonAux.
Import Encoder Decoder.

(** Whether the text after a high surrogate escape would be taken for its
  second half. *)
Definition no_low_follows (tail : pystr) : bool :=
match strip_prefix [BACKSLASH_CH; 117] tail with
| None => true
| Some s4 =>
    match decode_uXXXX s4 with
    | Some (u2, _) => negb (is_low_surrogate u2)
    | None => false
    end
end.

(** What may follow a number in a document without being taken into it. *)
Definition number_end (rest : pystr) : bool :=
match rest with
| [] => true
| c :: _ =>
    negb (is_digit c || (c =? DOT) || (c =? 101) || (c =? 69)
          || (c =? PLUS) || (c =? MINUS))
end.

Section value_induction.
Variable P : value -> Prop.
Hypothesis HNone : P VNone.
Hypothesis HBool : forall b, P (VBool b).
Hypothesis HInt : forall z, P (VInt z).
Hypothesis HFloat : forall f, P (VFloat f).
Hypothesis HStr : forall s, P (VStr s).
Hypothesis HList : forall l, Forall P l -> P (VList l).
Hypothesis HDict : forall d, Forall (fun kv => P (snd kv)) d -> P (VDict d).

Fixpoint value_nested_ind (v : value) : P v :=
match v with
| VNone => HNone
| VBool b => HBool b
| VInt z => HInt z
| VFloat f => HFloat f
| VStr s => HStr s
| VList l =>
    HList l
      ((fix go (l : list value) : Forall P l :=
          match l with
          | [] => @List.Forall_nil _ P
          | x :: l' => @List.Forall_cons _ P x l' (value_nested_ind x) (go l')
          end) l)
| VDict d =>
    HDict d
      ((fix go (d : list (pystr * value)) : Forall (fun kv => P (snd kv)) d :=
          match d with
          | [] => @List.Forall_nil _ (fun kv => P (snd kv))
          | kv :: d' =>
              @List.Forall_cons _ (fun kv => P (snd kv)) kv d'
                (value_nested_ind (snd kv)) (go d')
          end) d)
end.
End value_induction.

Definition list_tail : list value -> pystr :=
fix others (l : list value) : pystr :=
  match l with
  | [] => []
  | x :: l' => item_separator ++ iterencode x ++ others l'
  end.

Definition dict_tail : list (pystr * value) -> pystr :=
fix others (l : list (pystr * value)) : pystr :=
  match l with
  | [] => []
  | (k', x) :: l' =>
      item_separator ++ encode_basestring_ascii k' ++
      key_separator ++ iterencode x ++ others l'
  end.

(** A character that starts a value: not a blank, not the byte order mark,
  and no part of a number that would precede it. *)
Definition value_start (c : N) : Prop :=
is_ws c = false /\ c <> 0xfeff /\ c <> RBRACKET.

(** What [scan_once] owes for one value: it reads the value back from its
  encoding, whatever follows, given fuel for the length of the encoding. *)
Definition reads_back (v : value) : Prop :=
wf_value v = true ->
forall rest fuel,
  number_end rest = true ->
  (length (iterencode v) <= fuel)%nat ->
  scan_once fuel (iterencode v ++ rest) = Some (v, rest).

End JsonAux.

(** *** The steps of [create_task] *)

Section CreateTaskSteps.

Variable settings : Settings.

(** The world in which [create_task] reaches its first server call. *)
Definition drawn (w : World) : World :=
{| backend := backend w; urandom := urandom w;
   urandom_calls := S (urandom_calls w);
   clock := clock w; clock_calls := S (clock_calls w);
   others := others w; sleeps := sleeps w |}.

Definition next_task_id (w : World) : pystr :=
uuid_str (uuid_int (urandom w (urandom_calls w))).

Definition next_payload (prompt : pystr)
  (metadata : option (list (pystr * value))) (w : World) : value :=
task_payload (next_task_id w) prompt metadata (clock w (clock_calls w)).

Definition next_message (prompt : pystr)
  (metadata : option (list (pystr * value))) (w : World) : Message :=
{| exchange := [];
   routing_key := TEXT_GENERATION_QUEUE settings;
   body := json_dumps (next_payload prompt metadata w);
   delivery_mode := 2;
   content_type := py "application/json";
   message_id := next_task_id w |}.

Definition stored (prompt : pystr)
  (metadata : option (list (pystr * value))) (w : World) : Backend :=
with_redis_data
  (<[get_task_key (next_task_id w) :=
       (json_dumps (next_payload prompt metadata w),
        (redis_now (backend w) + TASK_TTL settings)%Z)]>
     (redis_data (backend w)))
  (backend w).

End CreateTaskSteps.

(** *** Signals, verdicts and sample worlds *)

Definition decode_error : exn :=
  Exception (py "JSONDecodeError") (py "invalid JSON document").

Definition status_field (o : value) : option value :=
  match o with
  | VDict d => dict_lookup d (py "status")
  | _ => None
  end.

(** What one turn of the loop does with the object it polled. *)
Definition verdict (task_data : value) : option (result (option value)) :=
  match task_data with
  | VDict d =>
      let status := default (VStr (py "UNKNOWN")) (dict_lookup d (py "status")) in
      if eq_str status STATUS_COMPLETED then Some (Return (Some task_data))
      else if eq_str status STATUS_FAILED then Some (Return (Some task_data))
      else if eq_str status (py "NOT_FOUND") || eq_str status (py "ERROR")
      then Some (Return None)
      else None
  | _ => Some (Raise (Exception (py "AttributeError")
                        (py "object has no attribute 'get'")))
  end.

(** The calls of [n] fruitless polling attempts. *)
Fixpoint attempts (n : nat) (task_id : pystr) (poll_interval : Z) : list Call :=
  match n with
  | O => []
  | S n' =>
      CallGet (get_task_key task_id) :: CallSleep poll_interval
      :: attempts n' task_id poll_interval
  end.


Definition reads_and_sleeps (c : Call) : Prop :=
  match c with
  | CallGet _ | CallSleep _ => True
  | _ => False
  end.

(** What a read of the key decodes to, when the read and the decoding both
    succeed. *)
Definition stored_document (b : Backend) (task_id : pystr) : option value :=
  match redis_fault b with
  | Some _ => None
  | None =>
      match redis_lookup b (get_task_key task_id) with
      | Some text => json_loads text
      | None => None
      end
  end.

(** ** Sample worlds *)

Definition quiet_backend : Backend :=
  {| redis_data := ∅; redis_now := 100; redis_fault := None;
     published := []; channel_fault := None |}.

Definition connection_lost : exn :=
  Exception (py "ConnectionError") (py "connection lost").

(** Both servers up, nothing stored, nobody else at work. *)
Definition sample_world : World :=
  {| backend := quiet_backend;
     urandom := fun n => 0x123456789abcdef0123456789abcdef0 + N.of_nat n;
     urandom_calls := 0;
     clock := fun _ => Finite (py "1730629999.25");
     clock_calls := 0;
     others := fun _ b => b;
     sleeps := 0 |}.

(** Redis is down. *)
Definition redis_down_world : World :=
  with_backend
    {| redis_data := ∅; redis_now := 100; redis_fault := Some connection_lost;
       published := []; channel_fault := None |}
    sample_world.

(** RabbitMQ is down. *)
Definition channel_down_world : World :=
  with_backend
    {| redis_data := ∅; redis_now := 100; redis_fault := None;
       published := []; channel_fault := Some connection_lost |}
    sample_world.

(** Somebody stored an empty JSON object under the key of task [x]. *)
Definition foreign_world : World :=
  with_backend
    {| redis_data := {[ get_task_key (py "x") := (py "{}", 1000%Z) ]};
       redis_now := 100; redis_fault := None;
       published := []; channel_fault := None |}
    sample_world.

Definition sample_metadata : list (pystr * value) :=
  [(py "request_number", VInt 1); (py "source", VStr (py "api_test"))].

(** A record that a worker completes during the first sleep is never seen,
    because a first miss ends the loop before any sleep. *)
Definition late_world : World :=
  {| backend := quiet_backend;
     urandom := urandom sample_world; urandom_calls := 0;
     clock := clock sample_world; clock_calls := 0;
     others := fun _ b =>
       with_redis_data
         {[ get_task_key (py "x") :=
              (json_dumps (VDict [(py "task_id", VStr (py "x"));
                                  (py "status", VStr STATUS_COMPLETED)]),
               1000%Z) ]} b;
     sleeps := 0 |}.

(** *** Worker calls *)

Module LifecycleAux.
Import LifecycleManager.





End LifecycleAux.

(** *** Open records *)

(** The four statuses that end the poll loop. *)
Definition ends_polling (status : value) : bool :=
  eq_str status STATUS_COMPLETED || eq_str status STATUS_FAILED
  || eq_str status (py "NOT_FOUND") || eq_str status (py "ERROR").

(** The key is readable and holds a JSON object whose status, or ["UNKNOWN"]
    when it has none, does not end the poll loop. *)
Definition open_now (b : Backend) (task_id : pystr) : bool :=
  match stored_document b task_id with
  | Some (VDict d) =>
      negb (ends_polling (default (VStr (py "UNKNOWN"))
                            (dict_lookup d (py "status"))))
  | _ => false
  end.

(** The record is open at each of the next [n] polling instants. *)
Fixpoint stays_open (n : nat) (task_id : pystr) (poll_interval : Z)
    (w : World) : bool :=
  match n with
  | O => true
  | S n' =>
      open_now (backend w) task_id &&
      stays_open n' task_id poll_interval (final (time_sleep poll_interval w))
  end.

(** A stored record that a worker has claimed. *)
Definition processing_world : World :=
  with_backend
    {| redis_data :=
         {[ get_task_key (py "x") :=
              (json_dumps (VDict [(py "task_id", VStr (py "x"));
                                  (py "status", VStr STATUS_PROCESSING)]),
               1000%Z) ]};
       redis_now := 100; redis_fault := None;
       published := []; channel_fault := None |}
    sample_world.

(** A stored record that a worker has completed. *)
Definition completed_world : World :=
  with_backend
    {| redis_data :=
         {[ get_task_key (py "x") :=
              (json_dumps (VDict [(py "task_id", VStr (py "x"));
                                  (py "status", VStr STATUS_COMPLETED);
                                  (py "result", VStr (py "done"))]),
               1000%Z) ]};
       redis_now := 100; redis_fault := None;
       published := []; channel_fault := None |}
    sample_world.

(** The key of task [x] holds the given text. *)
Definition stored_text_world (text : pystr) : World :=
  with_backend
    {| redis_data := {[ get_task_key (py "x") := (text, 1000%Z) ]};
       redis_now := 100; redis_fault := None;
       published := []; channel_fault := None |}
    sample_world.

(** ** api_server.py: main; client_test.py: test_multiple_requests *)

(** The loop [for i, prompt in enumerate(prompts, 1)] that creates one task
    per prompt and appends its id to [task_ids]; [metadata_of i] is the
    metadata literal of the loop body. *)
Fixpoint create_each (settings : Settings)
    (metadata_of : Z -> option (list (pystr * value)))
    (i : Z) (prompts : list pystr) (task_ids : list pystr) : M (list pystr) :=
  match prompts with
  | [] => ret task_ids
  | prompt :: rest =>
      task_id ← create_task settings prompt (metadata_of i);
      create_each settings metadata_of (i + 1)%Z rest (task_ids ++ [task_id])
  end.

(** The requests of [main] in api_server.py; the source runs the loop on
    four literal prompts, here the list is a parameter.  Connecting, closing
    and console output are not modelled. *)
Definition main_requests (settings : Settings) (test_prompts : list pystr)
  : M (list pystr) :=
  create_each settings
    (fun i => Some [(py "request_number", VInt i);
                    (py "source", VStr (py "api_test"))])
    1 test_prompts [].

(** The submissions of [test_multiple_requests]; the source has three
    literal prompts. *)
Definition submit_all (settings : Settings) (prompts : list pystr)
  : M (list pystr) :=
  create_each settings
    (fun i => Some [(py "batch_id", VStr (py "test2")); (py "order", VInt i)])
    1 prompts [].

(** The loop of [test_multiple_requests] that polls the tasks in turn. *)
Fixpoint poll_each (task_ids : list pystr) (results : list (option value))
  : M (list (option value)) :=
  match task_ids with
  | [] => ret results
  | task_id :: rest =>
      result ← poll_result task_id 1 30 true;
      poll_each rest (results ++ [result])
  end.

(** The ids that the next [n] calls of [uuid4] give. *)
Definition next_task_ids (n : nat) (w : World) : list pystr :=
  map (fun k => uuid_str (uuid_int (urandom w (urandom_calls w + k)%nat)))
      (seq 0 n).

(** Printable ASCII. *)
Definition printable (c : N) : bool := (SPACE <=? c) && (c <=? TILDE).

(** [test_multiple_requests]: submit every prompt, then wait for the tasks
    one after the other; the results in the order of the prompts.  The
    display of the results and the closing of the client in the [finally]
    clause are not modelled. *)
Definition test_multiple_requests (settings : Settings) (prompts : list pystr)
  : M (list (option value)) :=
  task_ids ← submit_all settings prompts;
  poll_each task_ids [].

(** A worker that finishes task [x] during the first sleep of the client. *)
Definition working_world : World :=
  {| backend := backend processing_world;
     urandom := urandom sample_world; urandom_calls := 0;
     clock := clock sample_world; clock_calls := 0;
     others := fun _ b =>
       with_redis_data
         {[ get_task_key (py "x") :=
              (json_dumps (VDict [(py "task_id", VStr (py "x"));
                                  (py "status", VStr STATUS_COMPLETED);
                                  (py "result", VStr (py "done"))]),
               1000%Z) ]} b;
     sleeps := 0 |}.

(** A worker that completes the first task created in [sample_world] while
    the client sleeps. *)
Definition served_world : World :=
  {| backend := quiet_backend;
     urandom := urandom sample_world; urandom_calls := 0;
     clock := clock sample_world; clock_calls := 0;
     others := fun _ b =>
       with_redis_data
         {[ get_task_key (next_task_id sample_world) :=
              (json_dumps (VDict [(py "task_id", VStr (next_task_id sample_world));
                                  (py "status", VStr STATUS_COMPLETED);
                                  (py "result", VStr (py "done"))]),
               5000%Z) ]} b;
     sleeps := 0 |}.

(** * Facts *)

Module JsonFacts.
Import Encoder Decoder JsonAux.

Ltac nbool :=
repeat match goal with
| H : (_ =? _) = true |- _ => apply N.eqb_eq in H
| H : (_ =? _) = false |- _ => apply N.eqb_neq in H
| H : (_ <? _) = true |- _ => apply N.ltb_lt in H
| H : (_ <? _) = false |- _ => apply N.ltb_ge in H
| H : (_ <=? _) = true |- _ => apply N.leb_le in H
| H : (_ <=? _) = false |- _ => apply N.leb_gt in H
| H : (_ && _) = true |- _ => apply andb_true_iff in H; destruct H
| H : (_ && _) = false |- _ => apply andb_false_iff in H
| H : (_ || _) = false |- _ => apply orb_false_iff in H; destruct H
| H : (_ || _) = true |- _ => apply orb_true_iff in H
| H : negb _ = true |- _ => apply negb_true_iff in H
| H : negb _ = false |- _ => apply negb_false_iff in H
end.

Ltac chars :=
unfold QUOTE, BACKSLASH_CH, SLASH, SPACE, TILDE, COMMA, COLON, MINUS, PLUS,
  DOT, LBRACE, RBRACE, LBRACKET, RBRACKET, ZERO, NINE in *.

Lemma eqb_false (a b : N) : a <> b -> (a =? b) = false.
Proof. apply N.eqb_neq. Qed.
Lemma ltb_true (a b : N) : a < b -> (a <? b) = true.
Proof. apply N.ltb_lt. Qed.
Lemma ltb_false (a b : N) : b <= a -> (a <? b) = false.
Proof. apply N.ltb_ge. Qed.
Lemma leb_true (a b : N) : a <= b -> (a <=? b) = true.
Proof. apply N.leb_le. Qed.
Lemma leb_false (a b : N) : b < a -> (a <=? b) = false.
Proof. apply N.leb_gt. Qed.

(* decide the comparisons of the goal from linear facts *)
Ltac ncmp :=
repeat match goal with
| |- context [?a =? ?b] =>
    first [ rewrite (proj2 (N.eqb_eq a b)) by lia
          | rewrite (eqb_false a b) by lia ]
| |- context [?a <? ?b] =>
    first [ rewrite (ltb_true a b) by lia | rewrite (ltb_false a b) by lia ]
| |- context [?a <=? ?b] =>
    first [ rewrite (leb_true a b) by lia | rewrite (leb_false a b) by lia ]
end.

(* lia loses that quotients and remainders in N are not negative *)
Ltac name_divmod :=
repeat match goal with
| |- context [?a / ?b] => let q := fresh "q" in set (q := a / b) in *; clearbody q
| |- context [?a mod ?b] => let r := fresh "r" in set (r := a mod b) in *; clearbody r
| H : context [?a / ?b] |- _ => let q := fresh "q" in set (q := a / b) in *; clearbody q
| H : context [?a mod ?b] |- _ => let r := fresh "r" in set (r := a mod b) in *; clearbody r
end.

Lemma hexval_hexdigit d : d < 16 -> hexval (hexdigit d) = Some d.
Proof.
intros Hd. unfold hexval, hexdigit, is_digit, ZERO, NINE.
destruct (d <? 10) eqn:E; nbool.
- ncmp. simpl. f_equal. lia.
- ncmp. simpl. f_equal. lia.
Qed.

Lemma nibbles n :
n < 65536 ->
4096 * (N.shiftr n 12 mod 16) + 256 * (N.shiftr n 8 mod 16)
+ 16 * (N.shiftr n 4 mod 16) + n mod 16 = n.
Proof.
intros Hn. rewrite !N.shiftr_div_pow2.
change (2 ^ 12) with 4096. change (2 ^ 8) with 256. change (2 ^ 4) with 16.
assert (H1 := N.div_mod n 16 ltac:(lia)).
assert (H2 := N.div_mod (n / 16) 16 ltac:(lia)).
assert (H3 := N.div_mod (n / 256) 16 ltac:(lia)).
assert (H4 := N.div_mod (n / 4096) 16 ltac:(lia)).
rewrite N.Div0.div_div in H2, H3, H4.
change (16 * 16) with 256 in *. change (256 * 16) with 4096 in *.
change (4096 * 16) with 65536 in *.
rewrite (N.div_small n 65536) in H4 by lia.
lia.
Qed.

Lemma decode_u_escape n :
n < 65536 -> exists h, u_escape n = BACKSLASH_CH :: 117 :: h /\ forall rest, decode_uXXXX (h ++ rest) = Some (n, rest).
Proof.
intros Hn. eexists. split; [reflexivity|]. intros r. simpl.
rewrite !hexval_hexdigit by (apply N.mod_lt; lia).
rewrite nibbles by assumption. reflexivity.
Qed.

Lemma lor_shiftl_low a b k :
b < 2 ^ k -> N.lor (N.shiftl a k) b = a * 2 ^ k + b.
Proof.
intros Hb.
assert (Hz : N.land (N.shiftl a k) b = 0).
{ apply N.bits_inj. intros i. rewrite N.land_spec, N.bits_0.
  destruct (N.lt_ge_cases i k) as [Hi|Hi].
  - rewrite N.shiftl_spec_low by assumption. reflexivity.
  - rewrite <- (N.mod_small b (2 ^ k)) by assumption.
    rewrite N.mod_pow2_bits_high by assumption. apply andb_false_r. }
rewrite <- N.lxor_lor by assumption.
rewrite <- N.add_nocarry_lxor by assumption.
rewrite N.shiftl_mul_pow2. reflexivity.
Qed.

(** The two halves of a code point above the basic plane, and back. *)
Lemma surrogates_of c :
0x10000 <= c -> c < 0x110000 ->
let n := c - 0x10000 in
let s1 := N.lor 0xd800 (N.land (N.shiftr n 10) 0x3ff) in
let s2 := N.lor 0xdc00 (N.land n 0x3ff) in
0xd800 <= s1 <= 0xdbff /\ 0xdc00 <= s2 <= 0xdfff /\
0x10000 + N.lor (N.shiftl (s1 - 0xd800) 10) (s2 - 0xdc00) = c.
Proof.
intros Hlo Hhi n s1 s2.
assert (Hn : n < 1048576) by (unfold n; lia).
assert (Hq : n / 1024 < 1024) by (apply N.Div0.div_lt_upper_bound; lia).
assert (Hr : n mod 1024 < 1024) by (apply N.mod_lt; lia).
assert (E1 : s1 = 0xd800 + n / 1024).
{ unfold s1. change 0x3ff with (N.ones 10). rewrite N.land_ones.
  rewrite N.shiftr_div_pow2. change (2 ^ 10) with 1024.
  rewrite (N.mod_small (n / 1024)) by assumption.
  change 0xd800 with (N.shiftl 54 10) at 1.
  rewrite lor_shiftl_low by (change (2 ^ 10) with 1024; assumption).
  reflexivity. }
assert (E2 : s2 = 0xdc00 + n mod 1024).
{ unfold s2. change 0x3ff with (N.ones 10). rewrite N.land_ones.
  change (2 ^ 10) with 1024.
  change 0xdc00 with (N.shiftl 55 10) at 1.
  rewrite lor_shiftl_low by (change (2 ^ 10) with 1024; assumption).
  reflexivity. }
rewrite E1, E2. clear s1 s2 E1 E2.
repeat split; try (clearbody n; name_divmod; lia).
rewrite (N.add_comm 0xd800), (N.add_comm 0xdc00), !N.add_sub.
rewrite lor_shiftl_low by (change (2 ^ 10) with 1024; assumption).
change (2 ^ 10) with 1024.
pose proof (N.div_mod n 1024 ltac:(lia)) as Hdm.
rewrite (N.mul_comm (n / 1024)), <- Hdm. unfold n. lia.
Qed.

Lemma strip_prefix_cons a p b s :
strip_prefix (a :: p) (b :: s) = if a =? b then strip_prefix p s else None.
Proof. reflexivity. Qed.

Lemma replace_no_low d tail :
d < 0x110000 -> is_low_surrogate d = false ->
no_low_follows (replace d ++ tail) = true.
Proof.
intros Hd Hlow. unfold replace, BACKSLASH_CH, QUOTE, SPACE, TILDE.
repeat (match goal with |- context [if ?b then _ else _] => destruct b eqn:? end;
        try reflexivity).
- nbool. unfold no_low_follows. change ([d] ++ tail) with (d :: tail).
  chars. rewrite strip_prefix_cons, eqb_false by lia. reflexivity.
- destruct (decode_u_escape d) as (h & -> & Hh); [nbool; lia|].
  unfold no_low_follows. simpl. rewrite Hh. rewrite Hlow. reflexivity.
- nbool.
  destruct (surrogates_of d) as (H1 & H2 & _); [lia|lia|].
  cbv zeta in H1, H2.
  set (s1 := N.lor 55296 _) in *. set (s2 := N.lor 56320 _) in *.
  destruct (decode_u_escape s1) as (h & -> & Hh); [lia|].
  unfold no_low_follows. simpl. rewrite <- app_assoc, Hh.
  unfold is_low_surrogate. rewrite leb_false by lia. reflexivity.
Qed.

Lemma scanstring_S fuel c s1 chunks :
scanstring (S fuel) (c :: s1) chunks =
if c =? QUOTE then Some (chunks, s1)
else if c =? BACKSLASH_CH then
  match s1 with
  | [] => None
  | esc :: s2 =>
      if esc =? 117 then
        match decode_uXXXX s2 with
        | None => None
        | Some (uni, s3) =>
            if (0xd800 <=? uni) && (uni <=? 0xdbff) then
              match strip_prefix [BACKSLASH_CH; 117] s3 with
              | Some s4 =>
                  match decode_uXXXX s4 with
                  | None => None
                  | Some (uni2, s5) =>
                      if (0xdc00 <=? uni2) && (uni2 <=? 0xdfff) then
                        scanstring fuel s5
                          (chunks ++
                           [0x10000 + N.lor (N.shiftl (uni - 0xd800) 10)
                                            (uni2 - 0xdc00)])
                      else scanstring fuel s3 (chunks ++ [uni])
                  end
              | None => scanstring fuel s3 (chunks ++ [uni])
              end
            else scanstring fuel s3 (chunks ++ [uni])
        end
      else
        match backslash esc with
        | None => None
        | Some char => scanstring fuel s2 (chunks ++ [char])
        end
  end
else if c <? SPACE then None
else scanstring fuel s1 (chunks ++ [c]).
Proof. reflexivity. Qed.

(** One character: the decoder undoes what [replace] wrote. *)
Lemma scanstring_replace c tail chunks fuel :
c < 0x110000 ->
(is_high_surrogate c = true -> no_low_follows tail = true) ->
scanstring (S fuel) (replace c ++ tail) chunks
= scanstring fuel tail (chunks ++ [c]).
Proof.
intros Hc Hsafe. unfold replace.
repeat match goal with
       | |- context [if ?b then _ else _] =>
           match b with
           | context [c] => destruct b eqn:?
           end
       end; nbool; chars;
  try (subst c; cbn [app]; rewrite scanstring_S; reflexivity);
  try (cbn [app]; rewrite scanstring_S; chars; ncmp; reflexivity).
- (* one escape of four digits *)
  destruct (decode_u_escape c) as (h & -> & Hh); [lia|].
  cbn [app]. rewrite scanstring_S. chars. ncmp. rewrite Hh.
  fold (is_high_surrogate c).
  destruct (is_high_surrogate c) eqn:Hhigh; [|reflexivity].
  specialize (Hsafe eq_refl). unfold no_low_follows in Hsafe. chars.
  destruct (strip_prefix [92; 117] tail) as [s4|]; [|reflexivity].
  destruct (decode_uXXXX s4) as [[u2 s5]|]; [|discriminate].
  fold (is_low_surrogate u2). nbool. rewrite Hsafe. reflexivity.
- (* a surrogate pair *)
  destruct (surrogates_of c) as (H1 & H2 & H3); [lia|lia|].
  cbv zeta in H1, H2, H3.
  set (s1 := N.lor 55296 _) in *. set (s2 := N.lor 56320 _) in *.
  destruct (decode_u_escape s1) as (h1 & -> & Hh1); [lia|].
  destruct (decode_u_escape s2) as (h2 & -> & Hh2); [lia|].
  cbn [app]. rewrite scanstring_S. chars. ncmp.
  rewrite <- app_assoc, Hh1. ncmp. cbn [andb app].
  rewrite !strip_prefix_cons. ncmp. cbn [strip_prefix].
  rewrite Hh2. ncmp. cbn [andb]. rewrite H3. reflexivity.
Qed.

Lemma text_ok_cons c s :
text_ok (c :: s) = true ->
c < 0x110000 /\ text_ok s = true /\
(is_high_surrogate c = true ->
 match s with d :: _ => is_low_surrogate d = false | [] => True end).
Proof.
cbn [text_ok]. intros H.
apply andb_true_iff in H. destruct H as [H Hs].
apply andb_true_iff in H. destruct H as [Hc Hp]. nbool.
repeat split; try assumption.
intros Hh. rewrite Hh in Hp. destruct s; [exact I|].
destruct Hp as [Hp|Hp]; [discriminate|exact Hp].
Qed.

(** A whole string: [scanstring] reads back what
  [encode_basestring_ascii] wrote between the quotes. *)
Lemma scanstring_escape_ascii s : forall chunks rest fuel,
text_ok s = true -> (length s < fuel)%nat ->
scanstring fuel (escape_ascii s ++ QUOTE :: rest) chunks
= Some (chunks ++ s, rest).
Proof.
induction s as [|c s IH]; intros chunks rest fuel Hok Hfuel.
- destruct fuel; [cbn in Hfuel; lia|]. cbn [escape_ascii flat_map app].
  rewrite scanstring_S. chars. ncmp. rewrite app_nil_r. reflexivity.
- destruct fuel; [cbn in Hfuel; lia|].
  apply text_ok_cons in Hok. destruct Hok as (Hc & Hs & Hpair).
  change (escape_ascii (c :: s)) with (replace c ++ escape_ascii s).
  rewrite <- app_assoc, scanstring_replace.
  + rewrite IH by (try assumption; cbn in Hfuel; lia).
    rewrite <- app_assoc. reflexivity.
  + assumption.
  + intros Hh. specialize (Hpair Hh). destruct s as [|d s'].
    * reflexivity.
    * apply text_ok_cons in Hs. destruct Hs as (Hd & _ & _).
      change (escape_ascii (d :: s')) with (replace d ++ escape_ascii s').
      rewrite <- app_assoc. apply replace_no_low; assumption.
Qed.

Lemma escape_ascii_length s : (length s <= length (escape_ascii s))%nat.
Proof.
induction s as [|c s IH]; [reflexivity|].
change (escape_ascii (c :: s)) with (replace c ++ escape_ascii s).
rewrite length_app. cbn [length].
assert (1 <= length (replace c))%nat; [|lia].
unfold replace, u_escape.
repeat match goal with |- context [if ?b then _ else _] => destruct b end;
  cbn; lia.
Qed.

(** *** Numbers *)

Lemma number_end_cons c rest :
number_end (c :: rest) = true ->
is_digit c = false /\ c <> DOT /\ c <> 101 /\ c <> 69 /\ c <> PLUS /\ c <> MINUS.
Proof.
cbn [number_end]. intros H. apply negb_true_iff in H.
repeat (apply orb_false_iff in H; destruct H as [H ?]). nbool.
repeat split; assumption.
Qed.

Lemma span_digits_cons c s :
span_digits (c :: s) =
if is_digit c then let (ds, rest) := span_digits s in (c :: ds, rest)
else ([], c :: s).
Proof. reflexivity. Qed.

Lemma span_digits_app s : forall ds r rest,
span_digits s = (ds, r) -> number_end rest = true ->
span_digits (s ++ rest) = (ds, r ++ rest).
Proof.
induction s as [|c s IH]; intros ds r rest Hs Hrest.
- cbn in Hs. injection Hs as <- <-. cbn [app].
  destruct rest as [|d rest]; [reflexivity|].
  apply number_end_cons in Hrest. destruct Hrest as (Hd & _).
  rewrite span_digits_cons, Hd. reflexivity.
- rewrite span_digits_cons in Hs. cbn [app]. rewrite span_digits_cons.
  destruct (is_digit c).
  + destruct (span_digits s) as [ds' r'] eqn:E. injection Hs as <- <-.
    rewrite (IH ds' r' rest eq_refl Hrest). reflexivity.
  + injection Hs as <- <-. reflexivity.
Qed.

Lemma span_digits_eq s : forall ds r, span_digits s = (ds, r) -> s = ds ++ r.
Proof.
induction s as [|c s IH]; intros ds r Hs.
- cbn in Hs. injection Hs as <- <-. reflexivity.
- rewrite span_digits_cons in Hs. destruct (is_digit c).
  + destruct (span_digits s) as [ds' r'] eqn:E. injection Hs as <- <-.
    cbn [app]. f_equal. apply IH. reflexivity.
  + injection Hs as <- <-. reflexivity.
Qed.

Lemma match_integer_app s i r rest :
match_integer s = Some (i, r) -> number_end rest = true ->
match_integer (s ++ rest) = Some (i, r ++ rest).
Proof.
unfold match_integer. intros Hs Hrest.
assert (Hgen : forall sign s0,
  match s0 with
  | c :: s' =>
      if c =? ZERO then Some (sign ++ [ZERO], s')
      else if is_digit c then
        let (ds, rest) := span_digits s0 in Some (sign ++ ds, rest)
      else None
  | [] => None
  end = Some (i, r) ->
  match s0 ++ rest with
  | c :: s' =>
      if c =? ZERO then Some (sign ++ [ZERO], s')
      else if is_digit c then
        let (ds, rest) := span_digits (s0 ++ rest) in Some (sign ++ ds, rest)
      else None
  | [] => None
  end = Some (i, r ++ rest)).
{ intros sign [|c s'] H; [discriminate|]. cbn [app].
  destruct (c =? ZERO); [injection H as <- <-; reflexivity|].
  destruct (is_digit c); [|discriminate].
  destruct (span_digits (c :: s')) as [ds r'] eqn:E.
  injection H as <- <-.
  change (c :: s' ++ rest) with ((c :: s') ++ rest).
  rewrite (span_digits_app _ _ _ _ E Hrest). reflexivity. }
destruct s as [|c s']; [discriminate|].
cbn [app]. destruct (c =? MINUS).
- apply (Hgen [MINUS] s'). exact Hs.
- apply (Hgen [] (c :: s')). exact Hs.
Qed.

Lemma match_integer_eq s i r : match_integer s = Some (i, r) -> s = i ++ r.
Proof.
unfold match_integer. intros Hs.
assert (Hgen : forall sign s0,
  match s0 with
  | c :: s' =>
      if c =? ZERO then Some (sign ++ [ZERO], s')
      else if is_digit c then
        let (ds, rest) := span_digits s0 in Some (sign ++ ds, rest)
      else None
  | [] => None
  end = Some (i, r) -> sign ++ s0 = i ++ r).
{ intros sign [|c s'] H; [discriminate|].
  destruct (c =? ZERO) eqn:E0.
  - injection H as <- <-. nbool. subst c. rewrite <- app_assoc. reflexivity.
  - destruct (is_digit c); [|discriminate].
    destruct (span_digits (c :: s')) as [ds r'] eqn:E.
    injection H as <- <-. rewrite <- app_assoc. f_equal.
    apply span_digits_eq. exact E. }
destruct s as [|c s']; [discriminate|].
destruct (c =? MINUS) eqn:E.
- nbool. subst c. apply (Hgen [MINUS] s'). exact Hs.
- apply (Hgen [] (c :: s')). exact Hs.
Qed.

Lemma match_frac_app s f r rest :
match_frac s = (f, r) -> number_end rest = true ->
match_frac (s ++ rest) = (f, r ++ rest).
Proof.
unfold match_frac. intros Hs Hrest. destruct s as [|c s'].
- injection Hs as <- <-. cbn [app]. destruct rest as [|d rest]; [reflexivity|].
  apply number_end_cons in Hrest. destruct Hrest as (_ & Hd & _).
  rewrite eqb_false by assumption. reflexivity.
- cbn [app]. destruct (c =? DOT); [|injection Hs as <- <-; reflexivity].
  destruct (span_digits s') as [ds r'] eqn:E.
  rewrite (span_digits_app _ _ _ _ E Hrest).
  destruct ds; injection Hs as <- <-; reflexivity.
Qed.

Lemma match_frac_eq s f r : match_frac s = (f, r) -> s = opt_str f ++ r.
Proof.
unfold match_frac. intros Hs. destruct s as [|c s'].
- injection Hs as <- <-. reflexivity.
- destruct (c =? DOT) eqn:Ec; [|injection Hs as <- <-; reflexivity].
  nbool. subst c.
  destruct (span_digits s') as [ds r'] eqn:E. apply span_digits_eq in E.
  destruct ds; injection Hs as <- <-; [reflexivity|].
  rewrite E. reflexivity.
Qed.

Lemma match_exp_app s e r rest :
match_exp s = (e, r) -> number_end rest = true ->
match_exp (s ++ rest) = (e, r ++ rest).
Proof.
unfold match_exp. intros Hs Hrest. destruct s as [|c s'].
- injection Hs as <- <-. cbn [app]. destruct rest as [|d rest]; [reflexivity|].
  apply number_end_cons in Hrest. destruct Hrest as (_ & _ & H1 & H2 & _).
  rewrite !eqb_false by assumption. reflexivity.
- cbn [app]. destruct ((c =? 101) || (c =? 69));
    [|injection Hs as <- <-; reflexivity].
  destruct s' as [|d r0].
  + cbn in Hs. injection Hs as <- <-. cbn [app].
    destruct rest as [|d rest]; [reflexivity|].
    pose proof (number_end_cons _ _ Hrest) as (Hd & _ & _ & _ & H3 & H4).
    rewrite !eqb_false by assumption. cbn [orb].
    rewrite span_digits_cons, Hd. reflexivity.
  + cbn [app]. destruct ((d =? MINUS) || (d =? PLUS)).
    * destruct (span_digits r0) as [ds r'] eqn:E.
      rewrite (span_digits_app _ _ _ _ E Hrest).
      destruct ds; injection Hs as <- <-; reflexivity.
    * destruct (span_digits (d :: r0)) as [ds r'] eqn:E.
      change (d :: r0 ++ rest) with ((d :: r0) ++ rest).
      rewrite (span_digits_app _ _ _ _ E Hrest).
      destruct ds; injection Hs as <- <-; reflexivity.
Qed.

Lemma match_exp_eq s e r : match_exp s = (e, r) -> s = opt_str e ++ r.
Proof.
unfold match_exp. intros Hs. destruct s as [|c s'].
- injection Hs as <- <-. reflexivity.
- destruct ((c =? 101) || (c =? 69)); [|injection Hs as <- <-; reflexivity].
  destruct s' as [|d r0].
  + cbn in Hs. injection Hs as <- <-. reflexivity.
  + destruct ((d =? MINUS) || (d =? PLUS)).
    * destruct (span_digits r0) as [ds r'] eqn:E. apply span_digits_eq in E.
      destruct ds; injection Hs as <- <-; [reflexivity|].
      rewrite E. reflexivity.
    * destruct (span_digits (d :: r0)) as [ds r'] eqn:E.
      apply span_digits_eq in E.
      destruct ds; injection Hs as <- <-; [reflexivity|].
      rewrite E. reflexivity.
Qed.

Lemma match_number_app s i f e r rest :
match_number s = Some (i, f, e, r) -> number_end rest = true ->
match_number (s ++ rest) = Some (i, f, e, r ++ rest).
Proof.
unfold match_number. intros Hs Hrest.
destruct (match_integer s) as [[i' s1]|] eqn:Ei; [|discriminate].
destruct (match_frac s1) as [f' s2] eqn:Ef.
destruct (match_exp s2) as [e' s3] eqn:Ee.
injection Hs as <- <- <- <-.
rewrite (match_integer_app _ _ _ _ Ei Hrest).
rewrite (match_frac_app _ _ _ _ Ef Hrest).
rewrite (match_exp_app _ _ _ _ Ee Hrest). reflexivity.
Qed.

Lemma match_number_eq s i f e r :
match_number s = Some (i, f, e, r) -> s = i ++ opt_str f ++ opt_str e ++ r.
Proof.
unfold match_number. intros Hs.
destruct (match_integer s) as [[i' s1]|] eqn:Ei; [|discriminate].
destruct (match_frac s1) as [f' s2] eqn:Ef.
destruct (match_exp s2) as [e' s3] eqn:Ee.
injection Hs as <- <- <- <-.
apply match_integer_eq in Ei. apply match_frac_eq in Ef.
apply match_exp_eq in Ee. subst. reflexivity.
Qed.

(** A number starts with a minus or a digit. *)
Lemma match_number_head s x :
match_number s = Some x ->
exists c s', s = c :: s' /\ (c = MINUS \/ is_digit c = true).
Proof.
unfold match_number, match_integer. intros Hs.
destruct s as [|c s']; [discriminate|]. exists c, s'. split; [reflexivity|].
destruct (c =? MINUS) eqn:E; [nbool; auto|]. right.
destruct (c =? ZERO) eqn:E0; [nbool; subst; reflexivity|].
destruct (is_digit c); [reflexivity|discriminate].
Qed.

(** *** Integers *)

Lemma chars_uint_chars u : chars_uint (uint_chars u) = u.
Proof. induction u; cbn; congruence. Qed.

Lemma span_digits_uint u : span_digits (uint_chars u) = (uint_chars u, []).
Proof.
induction u; cbn [uint_chars]; [reflexivity|..];
  rewrite span_digits_cons; cbn; rewrite IHu; reflexivity.
Qed.

Lemma nzhead_not_D0 u v : nzhead u <> D0 v.
Proof. induction u; cbn; try discriminate. assumption. Qed.

(** The digits of a positive number do not start with a zero. *)
Lemma to_uint_head p :
exists c ds, uint_chars (Pos.to_uint p) = c :: ds /\
             is_digit c = true /\ c <> ZERO.
Proof.
pose proof (DecimalPos.Unsigned.to_of (Pos.to_uint p)) as Hn.
rewrite DecimalPos.Unsigned.of_to in Hn. cbn [N.to_uint] in Hn.
pose proof (DecimalPos.Unsigned.to_uint_nonnil p) as Hnil.
pose proof (DecimalPos.Unsigned.to_uint_nonzero p) as Hzero.
destruct (Pos.to_uint p) as [|u|u|u|u|u|u|u|u|u|u] eqn:E;
  try (eexists _, _; split; [reflexivity|split; [reflexivity|chars; lia]]).
- contradiction.
- exfalso. rewrite unorm_D0 in Hn. unfold unorm in Hn.
  destruct (nzhead u) eqn:Eh; try discriminate.
  + injection Hn as ->. apply Hzero. reflexivity.
  + exact (nzhead_not_D0 _ _ Eh).
Qed.

Lemma match_number_intstr z :
match_number (intstr z) = Some (intstr z, None, None, []).
Proof.
unfold match_number, intstr. destruct z as [|p|p]; cbn [Z.to_int].
- reflexivity.
- unfold match_integer.
  destruct (to_uint_head p) as (c & ds & E & Hd & Hz).
  rewrite E.
  assert (Hm : (c =? MINUS) = false).
  { apply N.eqb_neq. intros ->. discriminate. }
  rewrite Hm. cbv iota beta. rewrite (eqb_false c ZERO) by assumption.
  rewrite Hd, <- E, span_digits_uint. reflexivity.
- unfold match_integer. change (MINUS =? MINUS) with true. cbv iota beta.
  destruct (to_uint_head p) as (c & ds & E & Hd & Hz).
  rewrite E. rewrite (eqb_false c ZERO) by assumption.
  rewrite Hd, <- E, span_digits_uint. reflexivity.
Qed.

Lemma parse_int_intstr z : parse_int (intstr z) = z.
Proof.
rewrite <- (DecimalZ.of_to z) at 2.
unfold parse_int, intstr. destruct z as [|p|p]; cbn [Z.to_int].
- reflexivity.
- destruct (to_uint_head p) as (c & ds & E & Hd & Hz).
  rewrite E.
  assert (Hm : (c =? MINUS) = false).
  { apply N.eqb_neq. intros ->. discriminate. }
  rewrite Hm, <- E, chars_uint_chars. reflexivity.
- change (MINUS =? MINUS) with true. cbv iota.
  rewrite chars_uint_chars. reflexivity.
Qed.

Lemma iterencode_list v l :
iterencode (VList (v :: l))
= LBRACKET :: iterencode v ++ list_tail l ++ [RBRACKET].
Proof. reflexivity. Qed.

Lemma iterencode_dict k v l :
iterencode (VDict ((k, v) :: l))
= LBRACE :: encode_basestring_ascii k ++ key_separator ++ iterencode v
  ++ dict_tail l ++ [RBRACE].
Proof. reflexivity. Qed.

Lemma list_tail_cons x l :
list_tail (x :: l) = item_separator ++ iterencode x ++ list_tail l.
Proof. reflexivity. Qed.

Lemma dict_tail_cons k x l :
dict_tail ((k, x) :: l)
= item_separator ++ encode_basestring_ascii k ++ key_separator
  ++ iterencode x ++ dict_tail l.
Proof. reflexivity. Qed.

Lemma is_digit_start c : is_digit c = true -> value_start c.
Proof.
unfold is_digit, value_start, is_ws. chars. intros H. nbool.
split; [ncmp; reflexivity | lia].
Qed.

Lemma iterencode_head v :
wf_value v = true ->
exists c s, iterencode v = c :: s /\ value_start c.
Proof.
assert (Hnum : forall s x, match_number s = Some x ->
               exists c s', s = c :: s' /\ value_start c).
{ intros s x Hs. destruct (match_number_head s x Hs) as (c & s' & -> & [->|Hd]).
  - eexists _, _. split; [reflexivity|]. repeat split; discriminate.
  - eexists _, _. split; [reflexivity|]. apply is_digit_start, Hd. }
intros Hwf. destruct v as [|[]|z|[lit| | |]|s|[|v l]|[|[k v] l]];
  try (eexists _, _; split; [reflexivity|]; repeat split; discriminate).
- apply (Hnum _ _ (match_number_intstr z)).
- cbn in Hwf. unfold float_literal in Hwf.
  destruct (match_number lit) as [x|] eqn:E; [|discriminate].
  apply (Hnum _ _ E).
Qed.

Lemma skip_ws_start c s : value_start c -> skip_ws (c :: s) = c :: s.
Proof. intros [H _]. cbn [skip_ws]. rewrite H. reflexivity. Qed.

Lemma skip_ws_iterencode v rest :
wf_value v = true -> skip_ws (iterencode v ++ rest) = iterencode v ++ rest.
Proof.
intros Hwf. destruct (iterencode_head v Hwf) as (c & s & -> & Hc).
apply skip_ws_start, Hc.
Qed.

Lemma scan_once_number fuel c s :
c = MINUS \/ is_digit c = true ->
scan_once (S fuel) (c :: s) =
match match_number (c :: s) with
| Some (integer, frac, exp, rest) =>
    match frac, exp with
    | None, None => Some (VInt (parse_int integer), rest)
    | _, _ =>
        Some (VFloat (parse_float (integer ++ opt_str frac ++ opt_str exp)),
              rest)
    end
| None =>
    match strip_prefix (py "NaN") (c :: s),
          strip_prefix (py "Infinity") (c :: s),
          strip_prefix (py "-Infinity") (c :: s) with
    | Some rest, _, _ => Some (VFloat NaN, rest)
    | _, Some rest, _ => Some (VFloat PosInf, rest)
    | _, _, Some rest => Some (VFloat NegInf, rest)
    | None, None, None => None
    end
end.
Proof.
intros Hc.
assert (H : c <> QUOTE /\ c <> LBRACE /\ c <> LBRACKET /\ c <> 110
            /\ c <> 116 /\ c <> 102).
{ destruct Hc as [->|Hd]; [repeat split; discriminate|].
  unfold is_digit in Hd. chars. nbool. lia. }
destruct H as (H1 & H2 & H3 & H4 & H5 & H6).
cbn [scan_once].
rewrite (eqb_false c QUOTE), (eqb_false c LBRACE), (eqb_false c LBRACKET)
  by assumption.
change (py "null") with [110; 117; 108; 108].
change (py "true") with [116; 114; 117; 101].
change (py "false") with [102; 97; 108; 115; 101].
rewrite !strip_prefix_cons.
rewrite (eqb_false 110 c), (eqb_false 116 c), (eqb_false 102 c) by congruence.
reflexivity.
Qed.

Lemma number_end_sep s : number_end (item_separator ++ s) = true.
Proof. reflexivity. Qed.

Lemma dict_set_fresh d k v :
k ∉ map fst d -> dict_set d k v = d ++ [(k, v)].
Proof.
induction d as [|[k' x] d IH]; intros Hk; [reflexivity|].
cbn [dict_set]. unfold str_eqb. rewrite bool_decide_eq_false_2.
- cbn [app]. f_equal. apply IH. intros Hin. apply Hk. cbn. right. exact Hin.
- intros ->. apply Hk. cbn. left.
Qed.

Lemma dict_of_pairs_nodup d :
NoDup (map fst d) -> dict_of_pairs d = d.
Proof.
intros Hnd. unfold dict_of_pairs.
assert (Hgen : forall l acc, NoDup (map fst (acc ++ l)) ->
          fold_left (fun d kv => dict_set d (fst kv) (snd kv)) l acc = acc ++ l).
{ induction l as [|[k v] l IH]; intros acc Hacc.
  - rewrite app_nil_r. reflexivity.
  - cbn [fold_left fst snd]. rewrite dict_set_fresh.
    + rewrite IH; rewrite <- app_assoc; [reflexivity|exact Hacc].
    + rewrite map_app in Hacc. apply NoDup_app in Hacc.
      destruct Hacc as (_ & Hdisj & _). intros Hin.
      apply (Hdisj k Hin). cbn. left. }
apply (Hgen d []). exact Hnd.
Qed.

Lemma iterencode_nonempty v :
wf_value v = true -> (1 <= length (iterencode v))%nat.
Proof.
intros Hwf. destruct (iterencode_head v Hwf) as (c & s & -> & _).
cbn. lia.
Qed.

Lemma wf_list_cons x l :
wf_value (VList (x :: l)) = true ->
wf_value x = true /\ wf_value (VList l) = true.
Proof. cbn [wf_value forallb]. intros H. apply andb_true_iff in H. exact H. Qed.

Lemma wf_dict_cons k x l :
wf_value (VDict ((k, x) :: l)) = true ->
text_ok k = true /\ wf_value x = true /\ wf_value (VDict l) = true.
Proof.
cbn [wf_value forallb map fst]. intros H.
apply andb_true_iff in H. destruct H as [Hnd H].
apply andb_true_iff in H. destruct H as [H Hl].
apply andb_true_iff in H. destruct H as [Hk Hx].
repeat split; try assumption.
apply andb_true_iff. split; [|assumption].
apply bool_decide_eq_true in Hnd. apply bool_decide_eq_true.
apply NoDup_cons in Hnd. apply Hnd.
Qed.

Lemma skip_ws_comma s : skip_ws (COMMA :: s) = COMMA :: s.
Proof. reflexivity. Qed.
Lemma skip_ws_colon s : skip_ws (COLON :: s) = COLON :: s.
Proof. reflexivity. Qed.
Lemma skip_ws_quote s : skip_ws (QUOTE :: s) = QUOTE :: s.
Proof. reflexivity. Qed.
Lemma skip_ws_rbracket s : skip_ws (RBRACKET :: s) = RBRACKET :: s.
Proof. reflexivity. Qed.
Lemma skip_ws_rbrace s : skip_ws (RBRACE :: s) = RBRACE :: s.
Proof. reflexivity. Qed.
Lemma skip_ws_space s : skip_ws (SPACE :: s) = skip_ws s.
Proof. reflexivity. Qed.
Lemma item_separator_app s : item_separator ++ s = COMMA :: SPACE :: s.
Proof. reflexivity. Qed.
Lemma key_separator_app s : key_separator ++ s = COLON :: SPACE :: s.
Proof. reflexivity. Qed.

Lemma array_items_S fuel s values :
array_items (S fuel) s values =
match scan_once fuel s with
| None => None
| Some (v, s1) =>
    let values := values ++ [v] in
    match skip_ws s1 with
    | c :: s2 =>
        if c =? RBRACKET then Some (VList values, s2)
        else if c =? COMMA then array_items fuel (skip_ws s2) values
        else None
    | [] => None
    end
end.
Proof. reflexivity. Qed.

Lemma object_items_S fuel s pairs :
object_items (S fuel) s pairs =
match scanstring (length s) s [] with
| None => None
| Some (key, s1) =>
    match skip_ws s1 with
    | c :: s2 =>
        if c =? COLON then
          match scan_once fuel (skip_ws s2) with
          | None => None
          | Some (v, s3) =>
              let pairs := pairs ++ [(key, v)] in
              match skip_ws s3 with
              | d :: s4 =>
                  if d =? RBRACE then Some (VDict (dict_of_pairs pairs), s4)
                  else if d =? COMMA then
                    match skip_ws s4 with
                    | q :: s5 =>
                        if q =? QUOTE then object_items fuel s5 pairs
                        else None
                    | [] => None
                    end
                  else None
              | [] => None
              end
          end
        else None
    | [] => None
    end
end.
Proof. reflexivity. Qed.

(** The loop of [JSONArray] over the encoding of the items. *)
Lemma array_items_spec l : forall x values rest fuel,
reads_back x -> Forall reads_back l ->
wf_value (VList (x :: l)) = true ->
(length (iterencode x ++ list_tail l ++ [RBRACKET]) <= fuel)%nat ->
array_items fuel (iterencode x ++ list_tail l ++ RBRACKET :: rest) values
= Some (VList (values ++ x :: l), rest).
Proof.
induction l as [|y l IH]; intros x values rest fuel Hx Hl Hwf Hfuel;
  apply wf_list_cons in Hwf; destruct Hwf as [Hwx Hwl];
  rewrite !length_app in Hfuel; cbn [length] in Hfuel;
  (destruct fuel as [|fuel]; [lia|]); rewrite array_items_S.
- cbn [list_tail app].
  rewrite (Hx Hwx (RBRACKET :: rest) fuel eq_refl) by (cbn in Hfuel; lia).
  rewrite skip_ws_rbracket. reflexivity.
- rewrite list_tail_cons in Hfuel |- *.
  pose proof (iterencode_nonempty x Hwx) as Hnx.
  rewrite !length_app in Hfuel. change (length item_separator) with 2%nat in Hfuel.
  rewrite <- !app_assoc.
  rewrite (Hx Hwx _ fuel (number_end_sep _)) by lia.
  apply Forall_cons in Hl. destruct Hl as [Hy Hl].
  rewrite item_separator_app, skip_ws_comma. cbv zeta.
  change (COMMA =? RBRACKET) with false. change (COMMA =? COMMA) with true.
  cbv iota. rewrite skip_ws_space.
  pose proof Hwl as Hwl'. apply wf_list_cons in Hwl'. destruct Hwl' as [Hwy _].
  rewrite skip_ws_iterencode by assumption.
  rewrite IH; try assumption.
  + rewrite <- app_assoc. reflexivity.
  + rewrite !length_app. cbn [length]. lia.
Qed.

Lemma scanstring_key k rest :
text_ok k = true ->
scanstring (length (escape_ascii k ++ QUOTE :: rest))
           (escape_ascii k ++ QUOTE :: rest) []
= Some (k, rest).
Proof.
intros Hk. rewrite scanstring_escape_ascii; [reflexivity|assumption|].
rewrite length_app. cbn [length]. pose proof (escape_ascii_length k). lia.
Qed.

(** The loop of [JSONObject] over the encoding of the items, entered after
  the opening quote of a key. *)
Lemma object_items_spec l : forall k x pairs rest fuel,
reads_back x -> Forall (fun kv => reads_back (snd kv)) l ->
wf_value (VDict ((k, x) :: l)) = true ->
(length (iterencode x ++ dict_tail l ++ [RBRACE]) <= fuel)%nat ->
object_items fuel
  (escape_ascii k ++ QUOTE :: key_separator ++ iterencode x
   ++ dict_tail l ++ RBRACE :: rest) pairs
= Some (VDict (dict_of_pairs (pairs ++ (k, x) :: l)), rest).
Proof.
induction l as [|[k' y] l IH]; intros k x pairs rest fuel Hx Hl Hwf Hfuel;
  apply wf_dict_cons in Hwf; destruct Hwf as (Hk & Hwx & Hwl);
  rewrite !length_app in Hfuel; cbn [length] in Hfuel;
  (destruct fuel as [|fuel]; [lia|]); rewrite object_items_S;
  rewrite scanstring_key by assumption;
  rewrite key_separator_app, skip_ws_colon;
  change (COLON =? COLON) with true; cbv iota;
  rewrite skip_ws_space, skip_ws_iterencode by assumption.
- cbn [dict_tail app].
  rewrite (Hx Hwx (RBRACE :: rest) fuel eq_refl) by (cbn in Hfuel; lia).
  rewrite skip_ws_rbrace. reflexivity.
- rewrite dict_tail_cons in Hfuel |- *.
  pose proof (iterencode_nonempty x Hwx) as Hnx.
  rewrite !length_app in Hfuel.
  change (length item_separator) with 2%nat in Hfuel.
  change (length key_separator) with 2%nat in Hfuel.
  unfold encode_basestring_ascii in Hfuel |- *. cbn [length] in Hfuel.
  rewrite length_app in Hfuel. cbn [length] in Hfuel.
  rewrite <- !app_assoc.
  rewrite (Hx Hwx _ fuel (number_end_sep _)) by lia.
  apply Forall_cons in Hl. destruct Hl as [Hy Hl]. cbn [snd] in Hy.
  rewrite item_separator_app, skip_ws_comma. cbv zeta.
  change (COMMA =? RBRACE) with false. change (COMMA =? COMMA) with true.
  cbv iota. rewrite skip_ws_space. cbn [app]. rewrite skip_ws_quote.
  change (QUOTE =? QUOTE) with true. cbv iota.
  rewrite <- !app_assoc. cbn [app].
  rewrite IH; try assumption.
  + rewrite <- app_assoc. reflexivity.
  + rewrite !length_app. cbn [length]. lia.
Qed.

Lemma scan_once_string fuel s1 :
scan_once (S fuel) (QUOTE :: s1) =
match scanstring (length s1) s1 [] with
| Some (str, rest) => Some (VStr str, rest)
| None => None
end.
Proof. reflexivity. Qed.

Lemma scan_once_object fuel s1 :
scan_once (S fuel) (LBRACE :: s1) =
match skip_ws s1 with
| c :: s2 =>
    if c =? RBRACE then Some (VDict [], s2)
    else if c =? QUOTE then object_items fuel s2 []
    else None
| [] => None
end.
Proof. reflexivity. Qed.

Lemma scan_once_array fuel s1 :
scan_once (S fuel) (LBRACKET :: s1) =
match skip_ws s1 with
| c :: s2 =>
    if c =? RBRACKET then Some (VList [], s2)
    else array_items fuel (c :: s2) []
| [] => array_items fuel [] []
end.
Proof. reflexivity. Qed.

(** [scan_once] reads every well-formed value back from its encoding. *)
Lemma scan_once_iterencode v : reads_back v.
Proof.
induction v as [|b|z|f|s|l IHl|d IHd] using value_nested_ind;
  intros Hwf rest fuel Hrest Hfuel;
  pose proof (iterencode_nonempty _ Hwf) as Hne;
  (destruct fuel as [|fuel]; [lia|]).
- reflexivity.
- destruct b; reflexivity.
- cbn [iterencode].
  pose proof (match_number_intstr z) as Hm.
  destruct (match_number_head _ _ Hm) as (c & s' & E & Hc).
  rewrite E. cbn [app]. rewrite scan_once_number by assumption.
  change (c :: s' ++ rest) with ((c :: s') ++ rest). rewrite <- E.
  rewrite (match_number_app _ _ _ _ _ _ Hm Hrest).
  rewrite parse_int_intstr. reflexivity.
- destruct f as [lit| | |]; try reflexivity.
  cbn [iterencode floatstr]. cbn in Hwf. unfold float_literal in Hwf.
  destruct (match_number lit) as [[[[i fr] ex] r]|] eqn:Hm; [|discriminate].
  assert (Hr : r = []).
  { destruct fr; [destruct r|destruct ex; [destruct r|]];
      congruence || discriminate. }
  subst r.
  destruct (match_number_head _ _ Hm) as (c & s' & E & Hc).
  rewrite E. cbn [app]. rewrite scan_once_number by assumption.
  change (c :: s' ++ rest) with ((c :: s') ++ rest). rewrite <- E.
  rewrite (match_number_app _ _ _ _ _ _ Hm Hrest).
  pose proof (match_number_eq _ _ _ _ _ Hm) as Elit.
  rewrite !app_nil_r in Elit. unfold parse_float. rewrite <- Elit.
  destruct fr; [reflexivity|]. destruct ex; [reflexivity|discriminate].
- cbn [iterencode]. unfold encode_basestring_ascii. cbn [app].
  rewrite scan_once_string. cbn in Hwf.
  rewrite <- app_assoc. cbn [app].
  rewrite scanstring_key by assumption. reflexivity.
- destruct l as [|x l]; [reflexivity|].
  rewrite iterencode_list in Hfuel |- *. cbn [app]. rewrite scan_once_array.
  rewrite <- !app_assoc. cbn [app].
  pose proof Hwf as Hwf'. apply wf_list_cons in Hwf'. destruct Hwf' as [Hwx _].
  rewrite skip_ws_iterencode by assumption.
  destruct (iterencode_head x Hwx) as (c & s & E & Hc).
  apply Forall_cons in IHl. destruct IHl as [Hx Hl].
  assert (Hcb : (c =? RBRACKET) = false) by (apply N.eqb_neq, Hc).
  rewrite E at 1. cbn [app]. rewrite Hcb.
  change (c :: s ++ ?t) with ((c :: s) ++ t). rewrite <- E.
  cbn [length] in Hfuel.
  rewrite (array_items_spec l x [] rest fuel Hx Hl Hwf) by lia.
  reflexivity.
- destruct d as [|[k x] d]; [reflexivity|].
  rewrite iterencode_dict in Hfuel |- *. cbn [app]. rewrite scan_once_object.
  unfold encode_basestring_ascii in Hfuel |- *. cbn [app].
  rewrite skip_ws_quote.
  change (QUOTE =? RBRACE) with false. change (QUOTE =? QUOTE) with true.
  cbv iota. rewrite <- !app_assoc. cbn [app].
  apply Forall_cons in IHd. destruct IHd as [Hx Hl]. cbn [snd] in Hx.
  cbn [length] in Hfuel. rewrite !length_app in Hfuel. cbn [length] in Hfuel.
  rewrite (object_items_spec d k x [] rest fuel Hx Hl Hwf)
    by (rewrite !length_app; cbn [length]; lia).
  cbn [app]. rewrite dict_of_pairs_nodup; [reflexivity|].
  cbn [wf_value] in Hwf. apply andb_true_iff in Hwf. destruct Hwf as [Hnd _].
  apply bool_decide_eq_true in Hnd. exact Hnd.
Qed.

(** [json.loads(json.dumps(v)) == v] for every well-formed value. *)
Lemma json_loads_dumps v :
wf_value v = true -> json_loads (json_dumps v) = Some v.
Proof.
intros Hwf. unfold json_loads, json_dumps.
destruct (iterencode_head v Hwf) as (c & s & E & Hws & Hbom & _).
assert (Hd : decode (iterencode v) = Some v).
{ unfold decode. rewrite <- (app_nil_r (iterencode v)) at 2.
  rewrite skip_ws_iterencode by assumption.
  rewrite (scan_once_iterencode v Hwf [] _ eq_refl) by lia.
  reflexivity. }
rewrite E in *. destruct c as [|p]; [exact Hd|].
repeat (destruct p as [p|p|]; try exact Hd).
Qed.
End JsonFacts.

Import JsonFacts JsonAux.

Lemma text_ok_below s :
  Forall (fun c => c < 0xd800) s -> text_ok s = true.
Proof.
  induction 1 as [|c s Hc _ IH]; [reflexivity|].
  cbn [text_ok]. rewrite IH. unfold is_high_surrogate.
  rewrite (proj2 (N.ltb_lt _ _)) by lia.
  rewrite (proj2 (N.leb_gt _ _)) by lia. reflexivity.
Qed.

Lemma hexdigit_below d : d < 16 -> Encoder.hexdigit d < 0xd800.
Proof.
  intros Hd. unfold Encoder.hexdigit, ZERO. destruct (d <? 10); lia.
Qed.

Lemma uuid_str_text int : text_ok (uuid_str int) = true.
Proof.
  apply text_ok_below. unfold uuid_str.
  assert (Hhex : Forall (fun c => c < 0xd800) (hex32 int)).
  { unfold hex32. apply Forall_map, Forall_forall. intros i _.
    apply hexdigit_below, N.mod_lt. discriminate. }
  assert (Hdash : Forall (fun c => c < 0xd800) [MINUS]).
  { repeat constructor. }
  repeat (apply Forall_app; split);
    auto using Forall_take, Forall_drop.
Qed.



Lemma setex_publish_pair name time value msg k t v m :
  CallSetex name time value ∈ [CallSetex k t v; CallPublish m] ->
  CallPublish msg ∈ [CallSetex k t v; CallPublish m] ->
  value = v /\ msg = m.
Proof.
  intros H1 H2.
  apply elem_of_cons in H1. destruct H1 as [H1|H1].
  - apply elem_of_cons in H2. destruct H2 as [H2|H2]; [discriminate|].
    apply list_elem_of_singleton in H2. split; congruence.
  - apply list_elem_of_singleton in H1. discriminate.
Qed.

Section ProducerFacts.
Variable settings : Settings.

Lemma create_task_outcome prompt metadata w :
  create_task settings prompt metadata w =
  let setex_call :=
    CallSetex (get_task_key (next_task_id w)) (TASK_TTL settings)
              (json_dumps (next_payload prompt metadata w)) in
  match redis_fault (backend w) with
  | Some e => Outcome (Raise e) (drawn w) [setex_call]
  | None =>
      if (TASK_TTL settings <=? 0)%Z then
        Outcome (Raise (Exception (py "ResponseError")
                          (py "invalid expire time in 'setex' command")))
                (drawn w) [setex_call]
      else
        match channel_fault (backend w) with
        | Some e =>
            Outcome (Raise e)
                    (with_backend (stored settings prompt metadata w) (drawn w))
                    [setex_call; CallPublish (next_message settings prompt metadata w)]
        | None =>
            Outcome (Return (next_task_id w))
                    (with_backend
                       (with_published
                          (published (backend w)
                           ++ [next_message settings prompt metadata w])
                          (stored settings prompt metadata w))
                       (drawn w))
                    [setex_call; CallPublish (next_message settings prompt metadata w)]
        end
  end.
Proof.
  unfold create_task, try_except, mbind, M_bind, bind, uuid4_str, time_time,
    setex, basic_publish, ret, raise.
  cbn [res final trace backend app].
  destruct (redis_fault (backend w)) as [e|] eqn:Ef; cbn [res final trace app];
    [reflexivity|].
  destruct (TASK_TTL settings <=? 0)%Z; cbn [res final trace app]; [reflexivity|].
  cbn [backend with_backend with_redis_data channel_fault].
  destruct (channel_fault (backend w)) as [e|]; cbn [res final trace app];
    reflexivity.
Qed.

Lemma get_task_status_outcome task_id w :
  get_task_status task_id w =
  let call := CallGet (get_task_key task_id) in
  match redis_fault (backend w) with
  | Some e => Outcome (Return (store_error task_id e)) w [call]
  | None =>
      match redis_lookup (backend w) (get_task_key task_id) with
      | None | Some [] => Outcome (Return (not_found task_id)) w [call]
      | Some text =>
          match json_loads text with
          | Some v => Outcome (Return v) w [call]
          | None => Outcome (Return (store_error task_id decode_error)) w [call]
          end
      end
  end.
Proof.
  unfold get_task_status, try_except, mbind, M_bind, bind, get, loads, ret, raise.
  cbn [res final trace app].
  destruct (redis_fault (backend w)) as [e|]; cbn [res final trace app];
    [reflexivity|].
  destruct (redis_lookup (backend w) (get_task_key task_id)) as [[|c text]|];
    cbn [res final trace app]; try reflexivity.
  destruct (json_loads (c :: text)); reflexivity.
Qed.

(** C1. [create_task] writes before it enqueues. When the write to the store
    fails (the connection is down, or the expiry time is not positive), no
    message is published: the queue is unchanged, no publish call is made,
    and the call raises. When the write succeeds and the publish fails, the
    call raises that failure instead of returning a task id, and the record
    written just before stays in the store. *)
Theorem create_task_write_then_enqueue prompt metadata w :
  let o := create_task settings prompt metadata w in
  (redis_fault (backend w) <> None \/ (TASK_TTL settings <= 0)%Z ->
     published (backend (final o)) = published (backend w) /\
     (forall msg, CallPublish msg ∉ trace o) /\
     exists e, res o = Raise e) /\
  (forall e,
     redis_fault (backend w) = None -> (0 < TASK_TTL settings)%Z ->
     channel_fault (backend w) = Some e ->
     res o = Raise e /\
     redis_data (backend (final o)) !! get_task_key (next_task_id w)
     = Some (json_dumps (next_payload prompt metadata w),
             (redis_now (backend w) + TASK_TTL settings)%Z)).
Proof.
  cbv zeta. rewrite create_task_outcome. cbv zeta. split.
  - intros Hfail.
    assert (Hraise : forall e call,
      let o := Outcome (A := pystr) (Raise e) (drawn w) [call] in
      (forall name time value, call = CallSetex name time value -> True) ->
      call = CallSetex (get_task_key (next_task_id w)) (TASK_TTL settings)
               (json_dumps (next_payload prompt metadata w)) ->
      published (backend (final o)) = published (backend w) /\
      (forall msg, CallPublish msg ∉ trace o) /\
      exists e', res o = Raise e').
    { intros e call o _ ->. subst o. cbn [res final trace drawn backend].
      split; [reflexivity|]. split; [|eauto].
      intros msg Hin. apply list_elem_of_singleton in Hin. discriminate. }
    destruct (redis_fault (backend w)) as [e|] eqn:Ef.
    + apply Hraise; [trivial|reflexivity].
    + destruct Hfail as [Hfail|Hfail]; [congruence|].
      rewrite (proj2 (Z.leb_le _ _) Hfail).
      apply Hraise; [trivial|reflexivity].
  - intros e Hr Httl Hc. rewrite Hr, Hc.
    rewrite (proj2 (Z.leb_gt _ _) Httl).
    cbn [res final backend with_backend stored with_redis_data redis_data].
    split; [reflexivity|]. apply lookup_insert_eq.
Qed.

(** C7. The body that [create_task] publishes is the very text it stored:
    whenever a [setex] and a [basic_publish] occur in one call, the body of
    the message equals the stored value; and when the call returns a task id,
    the store holds under that task's key the serialised record of that task
    id, prompt, metadata, creation time and status, the queue has grown by
    one message, and that message carries the same text and the task id. *)
Theorem published_body_is_stored_value prompt metadata w :
  let o := create_task settings prompt metadata w in
  (forall name time value msg,
     CallSetex name time value ∈ trace o -> CallPublish msg ∈ trace o ->
     body msg = value) /\
  (forall task_id,
     res o = Return task_id ->
     exists text deadline msg,
       text = json_dumps (task_payload task_id prompt metadata
                            (clock w (clock_calls w))) /\
       redis_data (backend (final o)) !! get_task_key task_id
       = Some (text, deadline) /\
       published (backend (final o)) = published (backend w) ++ [msg] /\
       body msg = text /\ message_id msg = task_id).
Proof.
  cbv zeta. rewrite create_task_outcome. cbv zeta. split.
  - intros name time value msg.
    destruct (redis_fault (backend w)).
    { cbn [trace]. intros _ H. apply list_elem_of_singleton in H. discriminate. }
    destruct (TASK_TTL settings <=? 0)%Z.
    { cbn [trace]. intros _ H. apply list_elem_of_singleton in H. discriminate. }
    destruct (channel_fault (backend w)); cbn [trace]; intros H1 H2;
      destruct (setex_publish_pair _ _ _ _ _ _ _ _ H1 H2) as [-> ->];
      reflexivity.
  - intros task_id.
    destruct (redis_fault (backend w)); [discriminate|].
    destruct (TASK_TTL settings <=? 0)%Z; [discriminate|].
    destruct (channel_fault (backend w)); [discriminate|].
    cbn [res final backend with_backend with_published stored
         with_redis_data redis_data published].
    intros [= <-]. eexists _, _, _. split; [reflexivity|].
    split; [apply lookup_insert_eq|]. repeat split.
Qed.

End ProducerFacts.

Lemma get_task_key_inj a b : get_task_key a = get_task_key b -> a = b.
Proof. unfold get_task_key. apply app_inv_head. Qed.

Lemma drawn_backend w : backend (drawn w) = backend w.
Proof. reflexivity. Qed.

(** Every key of Redis belongs to a task id that [create_task] generated. *)
Lemma history_keys settings w returned generated :
  history settings w returned generated ->
  forall key, is_Some (redis_data (backend w) !! key) ->
  exists g, g ∈ generated /\ key = get_task_key g.
Proof.
  induction 1 as [w Hempty|w returned generated prompt metadata _ IH
                 |w returned generated b _ IH Hdom]; intros key Hkey.
  - rewrite Hempty, lookup_empty in Hkey. destruct Hkey as [? [=]].
  - assert (Hold : is_Some (redis_data (backend w) !! key) ->
                   exists g, g ∈ next_task_id w :: generated /\
                             key = get_task_key g).
    { intros Hk. destruct (IH key Hk) as (g & Hg & ->).
      exists g. split; [apply list_elem_of_further, Hg|reflexivity]. }
    rewrite create_task_outcome in Hkey. cbv zeta in Hkey.
    destruct (redis_fault (backend w)); [exact (Hold Hkey)|].
    destruct (TASK_TTL settings <=? 0)%Z; [exact (Hold Hkey)|].
    assert (Hnew : is_Some (redis_data (stored settings prompt metadata w) !! key) ->
                   exists g, g ∈ next_task_id w :: generated /\
                             key = get_task_key g).
    { cbn [stored with_redis_data redis_data]. intros Hk.
      destruct (decide (get_task_key (next_task_id w) = key)) as [<-|Hne].
      - exists (next_task_id w). split; [apply list_elem_of_here|reflexivity].
      - rewrite lookup_insert_ne in Hk by assumption. exact (Hold Hk). }
    destruct (channel_fault (backend w)); exact (Hnew Hkey).
  - apply IH. apply elem_of_dom. apply Hdom. apply elem_of_dom. exact Hkey.
Qed.

Section StatusFacts.
Variable settings : Settings.

(** C4, amended. [get_task_status] returns the NOT_FOUND dictionary, without
    raising, when the store is reachable and holds no live value under the
    key; this is so for every task id that no earlier [create_task] call
    generated, whether or not that call returned. It returns the ERROR
    dictionary carrying the text of the failure when the read fails. The two
    dictionaries differ in their [status]. *)
Theorem get_task_status_not_found_or_error task_id w :
  (redis_fault (backend w) = None ->
   redis_lookup (backend w) (get_task_key task_id) = None ->
   res (get_task_status task_id w) = Return (not_found task_id)) /\
  (forall returned generated,
     history settings w returned generated ->
     task_id ∉ generated ->
     redis_fault (backend w) = None ->
     res (get_task_status task_id w) = Return (not_found task_id)) /\
  (forall e,
     redis_fault (backend w) = Some e ->
     res (get_task_status task_id w) = Return (store_error task_id e)) /\
  (forall e,
     status_field (not_found task_id) = Some (VStr (py "NOT_FOUND")) /\
     status_field (store_error task_id e) = Some (VStr (py "ERROR")) /\
     dict_lookup [(py "task_id", VStr task_id); (py "status", VStr (py "ERROR"));
                  (py "error", VStr (exn_str e))] (py "error")
     = Some (VStr (exn_str e)) /\
     status_field (not_found task_id) <> status_field (store_error task_id e)).
Proof.
  assert (Hmiss : redis_fault (backend w) = None ->
            redis_lookup (backend w) (get_task_key task_id) = None ->
            res (get_task_status task_id w) = Return (not_found task_id)).
  { intros Hr Hl. rewrite get_task_status_outcome. cbv zeta.
    rewrite Hr, Hl. reflexivity. }
  split; [exact Hmiss|]. split; [|split].
  - intros returned generated Hh Hid Hr. apply Hmiss; [exact Hr|].
    unfold redis_lookup.
    destruct (redis_data (backend w) !! get_task_key task_id) as [[v t]|] eqn:E;
      [|reflexivity].
    destruct (history_keys _ _ _ _ Hh (get_task_key task_id)) as (g & Hg & Eg).
    { rewrite E. eauto. }
    apply get_task_key_inj in Eg. subst g. contradiction.
  - intros e He. rewrite get_task_status_outcome. cbv zeta. rewrite He.
    reflexivity.
  - intros e. repeat split. discriminate.
Qed.
End StatusFacts.

(** ** The poll loop *)

Lemma get_task_status_shape task_id w :
  exists v,
    get_task_status task_id w
    = Outcome (Return v) w [CallGet (get_task_key task_id)].
Proof.
  rewrite get_task_status_outcome. cbv zeta.
  destruct (redis_fault (backend w)); [eauto|].
  destruct (redis_lookup (backend w) (get_task_key task_id)) as [[|c text]|];
    eauto.
  destruct (json_loads (c :: text)); eauto.
Qed.

Lemma method_get_dict d key dflt :
  method_get (VDict d) key dflt = ret (default dflt (dict_lookup d key)).
Proof. unfold method_get. destruct (dict_lookup d key); reflexivity. Qed.

Lemma bind_ret {A B} (a : A) (k : A -> M B) w : bind (ret a) k w = k a w.
Proof. unfold bind, ret. cbn [res final trace app]. destruct (k a w); reflexivity. Qed.

Lemma bind_outcome {A B} (m : M A) (k : A -> M B) w a w1 t :
  m w = Outcome (Return a) w1 t ->
  bind m k w = Outcome (res (k a w1)) (final (k a w1)) (t ++ trace (k a w1)).
Proof. intros E. unfold bind. rewrite E. reflexivity. Qed.

Lemma poll_loop_S n task_id poll_interval w v :
  res (get_task_status task_id w) = Return v ->
  poll_loop (S n) task_id poll_interval w =
  let call := CallGet (get_task_key task_id) in
  match verdict v with
  | Some r => Outcome r w [call]
  | None =>
      let o := time_sleep poll_interval w in
      match res o with
      | Return _ =>
          let o' := poll_loop n task_id poll_interval (final o) in
          Outcome (res o') (final o') (call :: trace o ++ trace o')
      | Raise e => Outcome (Raise e) (final o) (call :: trace o)
      end
  end.
Proof.
  intros Hv. destruct (get_task_status_shape task_id w) as (v' & E).
  rewrite E in Hv. cbn [res] in Hv. injection Hv as ->.
  cbn [poll_loop]. unfold mbind, M_bind.
  rewrite (bind_outcome _ _ _ _ _ _ E). cbv zeta. unfold verdict.
  destruct v as [| | | | | |d];
    try (unfold method_get, bind, raise; cbn [res final trace app]; reflexivity).
  rewrite method_get_dict, bind_ret.
  set (status := default (VStr (py "UNKNOWN")) (dict_lookup d (py "status"))).
  destruct (eq_str status STATUS_COMPLETED); [reflexivity|].
  destruct (eq_str status STATUS_FAILED); [reflexivity|].
  destruct (eq_str status (py "NOT_FOUND") || eq_str status (py "ERROR"));
    [reflexivity|].
  unfold bind. destruct (res (time_sleep poll_interval w)); reflexivity.
Qed.

Lemma eq_str_true o s : eq_str o s = true -> o = VStr s.
Proof.
  destruct o; try discriminate. unfold eq_str, str_eqb.
  intros H. apply bool_decide_eq_true in H. congruence.
Qed.

Lemma pending_verdict task_id w :
  pending_now (backend w) task_id = true ->
  exists v, res (get_task_status task_id w) = Return v /\ verdict v = None.
Proof.
  unfold pending_now, stored_status. intros H.
  apply andb_true_iff in H. destruct H as [Hr H].
  apply bool_decide_eq_true in Hr.
  rewrite get_task_status_outcome. cbv zeta. rewrite Hr.
  destruct (redis_lookup (backend w) (get_task_key task_id)) as [text|];
    [|discriminate].
  destruct text as [|c text]; [discriminate|].
  destruct (json_loads (c :: text)) as [[| | | | | |d]|]; try discriminate.
  destruct (dict_lookup d (py "status")) as [st|] eqn:Est; [|discriminate].
  apply eq_str_true in H. subst st.
  eexists. split; [reflexivity|]. unfold verdict. rewrite Est. reflexivity.
Qed.

Lemma time_sleep_ok secs w :
  (0 <= secs)%Z ->
  res (time_sleep secs w) = Return tt /\
  trace (time_sleep secs w) = [CallSleep secs].
Proof.
  intros H. unfold time_sleep. rewrite (proj2 (Z.ltb_ge _ _) H). split; reflexivity.
Qed.

Lemma poll_loop_timeout n task_id poll_interval : forall w,
  (0 <= poll_interval)%Z ->
  stays_pending n task_id poll_interval w = true ->
  poll_loop n task_id poll_interval w
  = Outcome (Return None) (after_sleeps n poll_interval w)
            (attempts n task_id poll_interval).
Proof.
  induction n as [|n IH]; intros w Hi Hp; [reflexivity|].
  cbn [stays_pending] in Hp. apply andb_true_iff in Hp. destruct Hp as [Hnow Hp].
  destruct (pending_verdict _ _ Hnow) as (v & Hv & Hverdict).
  rewrite (poll_loop_S _ _ _ _ _ Hv). cbv zeta. rewrite Hverdict.
  destruct (time_sleep_ok poll_interval w Hi) as [Hres Htrace].
  rewrite Hres, Htrace, (IH _ Hi Hp). reflexivity.
Qed.

Section ClientFacts.
Variable settings : Settings.

(** C5. When [create_task] returns a task id and the record of that task is
    PENDING at each of the next three polling instants, [submit_and_wait]
    with [poll_interval = 1] and [max_attempts = 3] returns [None], having
    made after the calls of [create_task] exactly three reads of the key,
    each followed by a sleep of one second. *)
Theorem submit_and_wait_timeout prompt metadata w task_id :
  res (create_task settings prompt metadata w) = Return task_id ->
  stays_pending 3 task_id 1
    (final (create_task settings prompt metadata w)) = true ->
  let o := submit_and_wait settings prompt metadata 1 3 w in
  res o = Return None /\
  trace o
  = trace (create_task settings prompt metadata w)
    ++ [CallGet (get_task_key task_id); CallSleep 1;
        CallGet (get_task_key task_id); CallSleep 1;
        CallGet (get_task_key task_id); CallSleep 1] /\
  final o = after_sleeps 3 1 (final (create_task settings prompt metadata w)).
Proof.
  intros Hc Hp. cbv zeta.
  unfold submit_and_wait, submit_request, poll_result, mbind, M_bind, bind.
  rewrite Hc. change (Z.to_nat 3) with 3%nat.
  rewrite (poll_loop_timeout 3 task_id 1 _ ltac:(lia) Hp).
  cbn [res final trace ret]. rewrite app_nil_r. repeat split.
Qed.
End ClientFacts.

(** ** More on the poll loop *)




Lemma time_sleep_trace secs w : trace (time_sleep secs w) = [CallSleep secs].
Proof. unfold time_sleep. destruct (secs <? 0)%Z; reflexivity. Qed.

Lemma time_sleep_raise secs w e :
  res (time_sleep secs w) = Raise e -> final (time_sleep secs w) = w.
Proof. unfold time_sleep. destruct (secs <? 0)%Z; [reflexivity|discriminate]. Qed.

Lemma poll_loop_world n task_id poll_interval : forall w,
  exists k, (k <= n)%nat /\
    final (poll_loop n task_id poll_interval w) = after_sleeps k poll_interval w /\
    Forall reads_and_sleeps (trace (poll_loop n task_id poll_interval w)).
Proof.
  induction n as [|n IH]; intros w.
  - exists 0%nat. repeat split; [lia|constructor].
  - destruct (get_task_status_shape task_id w) as (v & E).
    assert (Hv : res (get_task_status task_id w) = Return v) by (rewrite E; reflexivity).
    rewrite (poll_loop_S _ _ _ _ _ Hv). cbv zeta.
    destruct (verdict v) as [r|].
    + exists 0%nat. repeat split; [lia|]. repeat constructor.
    + destruct (res (time_sleep poll_interval w)) as [[]|e] eqn:Es.
      * destruct (IH (final (time_sleep poll_interval w))) as (k & Hk & Hf & Ht).
        exists (S k). cbn [final trace after_sleeps]. repeat split; [lia|exact Hf|].
        constructor; [exact I|]. rewrite time_sleep_trace.
        constructor; [exact I|exact Ht].
      * exists 0%nat. cbn [final trace after_sleeps].
        rewrite (time_sleep_raise _ _ _ Es), time_sleep_trace.
        repeat split; [lia|]. repeat constructor.
Qed.

Lemma time_sleep_others secs w :
  others (final (time_sleep secs w)) = others w.
Proof. unfold time_sleep. destruct (secs <? 0)%Z; reflexivity. Qed.



(** ** The document behind a task id *)

Lemma json_loads_nil : json_loads [] = None.
Proof. reflexivity. Qed.

(** C10, amended. [get_task_status] never raises. When the key holds a
    document that decodes, it returns that document as decoded, whatever it
    is; in every other case (no value, an empty value, a failing read, a
    value that is not JSON) it returns a dictionary that has the keys
    [task_id] and [status]. *)
Theorem get_task_status_total task_id w :
  exists v,
    res (get_task_status task_id w) = Return v /\
    (forall doc, stored_document (backend w) task_id = Some doc -> v = doc) /\
    (stored_document (backend w) task_id = None ->
     has_key v (py "task_id") = true /\ has_key v (py "status") = true).
Proof.
  rewrite get_task_status_outcome. cbv zeta. unfold stored_document.
  destruct (redis_fault (backend w)) as [e|].
  { eexists. split; [reflexivity|]. repeat split; discriminate. }
  destruct (redis_lookup (backend w) (get_task_key task_id)) as [[|c text]|].
  - eexists. split; [reflexivity|]. rewrite json_loads_nil.
    repeat split; discriminate.
  - destruct (json_loads (c :: text)) as [doc|].
    + exists doc. split; [reflexivity|]. repeat split; congruence.
    + eexists. split; [reflexivity|]. repeat split; discriminate.
  - eexists. split; [reflexivity|]. repeat split; discriminate.
Qed.


(** The record of a new task has neither [result] nor [error]. *)
Lemma task_payload_non_terminal task_id prompt metadata created_at :
  exists record,
    task_payload task_id prompt metadata created_at = VDict record /\
    dict_lookup record (py "result") = None /\
    dict_lookup record (py "error") = None.
Proof. eexists. split; [reflexivity|]. split; reflexivity. Qed.

(** ** Worker-side transitions *)

Module LifecycleFacts.
Import LifecycleManager LifecycleAux.












End LifecycleFacts.

Example sample_create :
  res (create_task default_settings (py "hi") (Some sample_metadata) sample_world)
  = Return (py "12345678-9abc-4ef0-9234-56789abcdef0").
Proof. vm_compute. reflexivity. Qed.

Lemma create_task_write_then_enqueue_witness :
  (published (backend (final (create_task default_settings (py "hi") None
                                redis_down_world)))
   = published (backend redis_down_world) /\
   (forall msg, CallPublish msg ∉
                trace (create_task default_settings (py "hi") None redis_down_world)) /\
   exists e, res (create_task default_settings (py "hi") None redis_down_world)
             = Raise e) /\
  res (create_task default_settings (py "hi") None channel_down_world)
  = Raise connection_lost.
Proof.
  pose proof (create_task_write_then_enqueue default_settings (py "hi") None
                redis_down_world) as Hdown.
  pose proof (create_task_write_then_enqueue default_settings (py "hi") None
                channel_down_world) as Hlost.
  cbv zeta in Hdown, Hlost.
  destruct Hdown as [Hdown _]. destruct Hlost as [_ Hlost]. split.
  - apply Hdown. left. vm_compute. discriminate.
  - refine (proj1 (Hlost connection_lost _ _ _)); vm_compute; reflexivity.
Defined.


(** C4 as stated does not hold: a [create_task] call whose publish fails
    returns no task id, yet the record it wrote is found afterwards. *)

Lemma orphan_record_is_found :
  ~ (forall settings w returned generated task_id,
       history settings w returned generated ->
       task_id ∉ returned ->
       redis_fault (backend w) = None ->
       res (get_task_status task_id w) = Return (not_found task_id)).
Proof.
  intros H.
  pose proof (history_create default_settings channel_down_world [] []
                (py "hi") None
                (history_start default_settings channel_down_world eq_refl)) as Hh.
  assert (Hret : res (create_task default_settings (py "hi") None channel_down_world)
                 = Raise connection_lost) by (vm_compute; reflexivity).
  rewrite Hret in Hh.
  specialize (H _ _ _ _ (next_task_id channel_down_world) Hh
                (not_elem_of_nil _) ltac:(vm_compute; reflexivity)).
  vm_compute in H. discriminate H.
Qed.

Lemma get_task_status_not_found_or_error_witness :
  res (get_task_status (py "x") sample_world) = Return (not_found (py "x")) /\
  res (get_task_status (py "x") redis_down_world)
  = Return (store_error (py "x") connection_lost).
Proof.
  destruct (get_task_status_not_found_or_error default_settings (py "x")
              sample_world) as (Hmiss & _ & _ & _).
  destruct (get_task_status_not_found_or_error default_settings (py "x")
              redis_down_world) as (_ & _ & Herr & _).
  split.
  - apply Hmiss; vm_compute; reflexivity.
  - apply Herr. vm_compute. reflexivity.
Defined.

Lemma submit_and_wait_timeout_witness :
  res (submit_and_wait default_settings (py "x") None 1 3 sample_world)
  = Return None.
Proof.
  pose proof (submit_and_wait_timeout default_settings (py "x") None
                sample_world (next_task_id sample_world)) as H.
  cbv zeta in H. refine (proj1 (H _ _)); vm_compute; reflexivity.
Defined.

(** C6 as stated does not hold: on a NOT_FOUND dictionary [poll_result]
    returns [None], not the dictionary. *)


(** A record that completes one second later is not waited for: the first
    miss ends the loop. *)
Example first_miss_is_not_tolerated :
  stored_status (backend (after_sleeps 1 1 late_world)) (py "x")
  = Some (VStr STATUS_COMPLETED) /\
  res (poll_result (py "x") 1 3 true late_world) = Return None /\
  trace (poll_result (py "x") 1 3 true late_world)
  = [CallGet (get_task_key (py "x"))].
Proof. repeat split; vm_compute; reflexivity. Qed.




(** C10 as stated does not hold: a stored JSON document without [task_id] is
    returned as it is. *)

Lemma foreign_document_lacks_the_keys :
  ~ (forall task_id w,
       exists v, res (get_task_status task_id w) = Return v /\
                 has_key v (py "task_id") = true /\
                 has_key v (py "status") = true).
Proof.
  intros H. destruct (H (py "x") foreign_world) as (v & Hv & Hid & _).
  vm_compute in Hv. injection Hv as <-. vm_compute in Hid. discriminate Hid.
Qed.

Lemma published_body_is_stored_value_witness :
  exists text deadline msg,
    redis_data (backend (final (create_task default_settings (py "hi") None
                                  sample_world)))
      !! get_task_key (next_task_id sample_world) = Some (text, deadline) /\
    published (backend (final (create_task default_settings (py "hi") None
                                 sample_world)))
    = published (backend sample_world) ++ [msg] /\
    body msg = text.
Proof.
  pose proof (published_body_is_stored_value default_settings (py "hi") None
                sample_world) as H.
  cbv zeta in H. destruct H as [_ H].
  destruct (H (next_task_id sample_world)) as (text & deadline & msg & _ & Hs & Hp & Hb & _).
  { vm_compute. reflexivity. }
  exists text, deadline, msg. auto.
Defined.

Lemma get_task_status_total_witness :
  exists v,
    res (get_task_status (py "x") sample_world) = Return v /\
    has_key v (py "task_id") = true /\ has_key v (py "status") = true.
Proof.
  destruct (get_task_status_total (py "x") sample_world) as (v & Hv & _ & Hk).
  exists v. split; [exact Hv|]. apply Hk. vm_compute. reflexivity.
Defined.

(** ** Keys *)

(** X1. [get_task_key] puts the prefix [task:] before the id and nothing
    after it: dropping the prefix gives the id back, so two ids have the same
    key exactly when they are the same id. *)
Theorem get_task_key_round_trip a b :
  take (length TASK_PREFIX) (get_task_key a) = TASK_PREFIX /\
  drop (length TASK_PREFIX) (get_task_key a) = a /\
  (get_task_key a = get_task_key b <-> a = b).
Proof.
  unfold get_task_key. split; [|split].
  - rewrite take_app_length. reflexivity.
  - rewrite drop_app_length. reflexivity.
  - split; [|congruence]. intros H. apply app_inv_head in H. exact H.
Qed.

(** ** What [create_task] leaves alone *)

Section CreateTaskFrame.
Variable settings : Settings.

(** X2. Whatever the outcome, [create_task] changes the store at most under
  the key of the id it generated, keeps every message that was already
  queued in its place, adding at most one behind them, and changes neither
  the server time nor the state of the two connections; it draws one
  random number and one clock reading. *)
Theorem create_task_frame prompt metadata w :
let o := create_task settings prompt metadata w in
(forall key, key <> get_task_key (next_task_id w) ->
   redis_data (backend (final o)) !! key = redis_data (backend w) !! key) /\
(exists added, published (backend (final o)) = published (backend w) ++ added /\
               (length added <= 1)%nat) /\
redis_now (backend (final o)) = redis_now (backend w) /\
redis_fault (backend (final o)) = redis_fault (backend w) /\
channel_fault (backend (final o)) = channel_fault (backend w) /\
urandom_calls (final o) = S (urandom_calls w) /\
clock_calls (final o) = S (clock_calls w) /\
sleeps (final o) = sleeps w.
Proof.
cbv zeta. rewrite create_task_outcome. cbv zeta.
assert (Hnil : exists added : list Message,
           published (backend w) = published (backend w) ++ added /\
           (length added <= 1)%nat).
{ exists []. rewrite app_nil_r. split; [reflexivity|cbn; lia]. }
destruct (redis_fault (backend w)) as [e|] eqn:Er.
{ cbn [final drawn backend]. rewrite Er. repeat split; auto. }
destruct (TASK_TTL settings <=? 0)%Z.
{ cbn [final drawn backend]. rewrite Er. repeat split; auto. }
destruct (channel_fault (backend w)) as [e|] eqn:Ec;
  cbn [final drawn backend with_backend with_published stored with_redis_data
       redis_data redis_now redis_fault channel_fault published urandom_calls
       clock_calls sleeps];
  rewrite ?Er, ?Ec; repeat split; auto;
  try (intros key Hkey; apply lookup_insert_ne; congruence).
eexists. split; [reflexivity|]. cbn. lia.
Qed.


(** X4. The record that [create_task] wrote is readable as long as fewer
  than [TASK_TTL] seconds have passed on the server and nobody has touched
  it; from then on [get_task_status] answers NOT_FOUND for its id, as for an
  id that never existed.  This holds whether or not the publish that
  followed the write succeeded. *)
Theorem created_record_expires prompt metadata w elapsed :
redis_fault (backend w) = None ->
(0 < TASK_TTL settings)%Z ->
let o := create_task settings prompt metadata w in
let task_id := next_task_id w in
let later :=
  with_backend
    (with_redis_now (redis_now (backend w) + elapsed)%Z (backend (final o)))
    (final o) in
((elapsed < TASK_TTL settings)%Z ->
 redis_lookup (backend later) (get_task_key task_id)
 = Some (json_dumps (task_payload task_id prompt metadata
                       (clock w (clock_calls w))))) /\
((TASK_TTL settings <= elapsed)%Z ->
 get_task_status task_id later
 = Outcome (Return (not_found task_id)) later [CallGet (get_task_key task_id)]).
Proof.
intros Hr Httl. cbv zeta.
rewrite get_task_status_outcome. cbv zeta.
rewrite create_task_outcome. cbv zeta.
rewrite Hr. rewrite (proj2 (Z.leb_gt _ _) Httl).
assert (Hlook : forall q,
  redis_lookup
    (with_redis_now (redis_now (backend w) + elapsed)%Z
       (with_published q (stored settings prompt metadata w)))
    (get_task_key (next_task_id w))
  = if (elapsed <? TASK_TTL settings)%Z
    then Some (json_dumps (next_payload prompt metadata w)) else None).
{ intros q. unfold redis_lookup.
  cbn [with_redis_now with_published stored with_redis_data redis_data
       redis_now].
  rewrite lookup_insert_eq.
  destruct (elapsed <? TASK_TTL settings)%Z eqn:E.
  - apply Z.ltb_lt in E. rewrite (proj2 (Z.ltb_lt _ _)) by lia. reflexivity.
  - apply Z.ltb_ge in E. rewrite (proj2 (Z.ltb_ge _ _)) by lia. reflexivity. }
assert (Hsame : stored settings prompt metadata w
                = with_published (published (backend w))
                    (stored settings prompt metadata w)) by reflexivity.
destruct (channel_fault (backend w)) as [e|];
  cbn [final backend with_backend with_redis_now redis_fault
       with_published stored with_redis_data];
  rewrite ?Hr; [rewrite Hsame|]; rewrite Hlook; split; intros He.
- rewrite (proj2 (Z.ltb_lt _ _) He). reflexivity.
- rewrite (proj2 (Z.ltb_ge _ _) He). reflexivity.
- rewrite (proj2 (Z.ltb_lt _ _) He). reflexivity.
- rewrite (proj2 (Z.ltb_ge _ _) He). reflexivity.
Qed.

End CreateTaskFrame.

(** ** More on [get_task_status] and the poll loop *)

(** X5. A value that is no JSON document never reaches the caller as an
    exception: for the empty string [get_task_status] answers NOT_FOUND, for
    any other undecodable text it answers ERROR with the decoder's message;
    either way [poll_result] gives up at its first attempt and returns
    [None]. *)
Theorem unreadable_value_ends_polling task_id poll_interval max_attempts verbose w text :
  redis_fault (backend w) = None ->
  redis_lookup (backend w) (get_task_key task_id) = Some text ->
  json_loads text = None ->
  (0 < max_attempts)%Z ->
  (exists message,
     get_task_status task_id w
     = Outcome (Return (match text with
                        | [] => not_found task_id
                        | _ :: _ =>
                            store_error task_id
                              (Exception (py "JSONDecodeError") message)
                        end))
               w [CallGet (get_task_key task_id)]) /\
  poll_result task_id poll_interval max_attempts verbose w
  = Outcome (Return None) w [CallGet (get_task_key task_id)].
Proof.
  intros Hr Hl Hj Hm.
  assert (Hs : get_task_status task_id w
               = Outcome (Return (match text with
                                  | [] => not_found task_id
                                  | _ :: _ => store_error task_id decode_error
                                  end))
                         w [CallGet (get_task_key task_id)]).
  { rewrite get_task_status_outcome. cbv zeta. rewrite Hr, Hl.
    destruct text as [|c text]; [reflexivity|]. rewrite Hj. reflexivity. }
  split; [eexists; exact Hs|].
  unfold poll_result.
  destruct (Z.to_nat max_attempts) as [|n] eqn:En; [lia|].
  rewrite (poll_loop_S n task_id poll_interval w _
             ltac:(rewrite Hs; reflexivity)).
  cbv zeta. destruct text; reflexivity.
Qed.

(** X6. With [max_attempts] zero or negative the loop body never runs:
    [poll_result] returns [None] without reading the store or sleeping, and
    [submit_and_wait] then returns [None] for a task it has just created,
    having made only the calls of [create_task]. *)
Theorem poll_result_without_attempts settings prompt metadata task_id poll_interval
    max_attempts verbose w :
  (max_attempts <= 0)%Z ->
  poll_result task_id poll_interval max_attempts verbose w
  = Outcome (Return None) w [] /\
  forall created,
    res (create_task settings prompt metadata w) = Return created ->
    submit_and_wait settings prompt metadata poll_interval max_attempts w
    = Outcome (Return None) (final (create_task settings prompt metadata w))
              (trace (create_task settings prompt metadata w)).
Proof.
  intros Hm. unfold submit_and_wait, submit_request, poll_result.
  replace (Z.to_nat max_attempts) with 0%nat by lia.
  split; [reflexivity|]. intros created Hc.
  unfold mbind, M_bind, bind. rewrite Hc. cbn [poll_loop res final trace ret].
  rewrite !app_nil_r. reflexivity.
Qed.

Lemma open_verdict task_id w :
  open_now (backend w) task_id = true ->
  exists v, res (get_task_status task_id w) = Return v /\ verdict v = None.
Proof.
  unfold open_now, stored_document. intros H.
  rewrite get_task_status_outcome. cbv zeta.
  destruct (redis_fault (backend w)); [discriminate|].
  destruct (redis_lookup (backend w) (get_task_key task_id)) as [text|];
    [|discriminate].
  destruct text as [|c text]; [discriminate|].
  destruct (json_loads (c :: text)) as [[| | | | | |d]|]; try discriminate.
  eexists. split; [reflexivity|]. unfold verdict.
  unfold ends_polling in H. apply negb_true_iff in H.
  set (status := default (VStr (py "UNKNOWN")) (dict_lookup d (py "status"))) in *.
  destruct (eq_str status STATUS_COMPLETED); [discriminate|].
  destruct (eq_str status STATUS_FAILED); [discriminate|].
  cbn [orb] in H. rewrite H. reflexivity.
Qed.

Lemma poll_loop_open_prefix k m task_id poll_interval : forall w,
  (0 <= poll_interval)%Z ->
  stays_open k task_id poll_interval w = true ->
  poll_loop (k + m) task_id poll_interval w =
  let o := poll_loop m task_id poll_interval (after_sleeps k poll_interval w) in
  Outcome (res o) (final o) (attempts k task_id poll_interval ++ trace o).
Proof.
  induction k as [|k IH]; intros w Hi Hp.
  - cbn. destruct (poll_loop m task_id poll_interval w). reflexivity.
  - cbn [stays_open] in Hp. apply andb_true_iff in Hp.
    destruct Hp as [Hnow Hp].
    destruct (open_verdict _ _ Hnow) as (v & Hv & Hverdict).
    change (S k + m)%nat with (S (k + m)).
    rewrite (poll_loop_S _ _ _ _ _ Hv). cbv zeta. rewrite Hverdict.
    destruct (time_sleep_ok poll_interval w Hi) as [Hres Htrace].
    rewrite Hres, Htrace, (IH _ Hi Hp). reflexivity.
Qed.

(** A record whose status is PENDING is open. *)
Lemma pending_is_open b task_id :
  pending_now b task_id = true -> open_now b task_id = true.
Proof.
  unfold pending_now, open_now, stored_status, stored_document. intros H.
  apply andb_true_iff in H. destruct H as [Hr H].
  apply bool_decide_eq_true in Hr. rewrite Hr.
  destruct (redis_lookup b (get_task_key task_id)) as [text|]; [|discriminate].
  destruct (json_loads text) as [[| | | | | |d]|]; try discriminate.
  destruct (dict_lookup d (py "status")) as [st|]; [|discriminate].
  apply eq_str_true in H. subst st. reflexivity.
Qed.

(** X7. The loop keeps polling through every status that is not one of
    COMPLETED, FAILED, NOT_FOUND and ERROR (PENDING, PROCESSING, any other
    text, no status at all), and returns the record, as read, at the first
    attempt that finds it COMPLETED or FAILED: after [k] open attempts the
    calls are [k] reads each followed by a sleep, then one read and no
    sleep. *)
Theorem poll_result_returns_finished_record k task_id poll_interval max_attempts
    verbose w record :
  (0 <= poll_interval)%Z ->
  (Z.of_nat k < max_attempts)%Z ->
  stays_open k task_id poll_interval w = true ->
  res (get_task_status task_id (after_sleeps k poll_interval w)) = Return record ->
  status_field record = Some (VStr STATUS_COMPLETED) \/
  status_field record = Some (VStr STATUS_FAILED) ->
  poll_result task_id poll_interval max_attempts verbose w
  = Outcome (Return (Some record)) (after_sleeps k poll_interval w)
            (attempts k task_id poll_interval ++ [CallGet (get_task_key task_id)]).
Proof.
  intros Hi Hk Hp Hv Hdone. unfold poll_result.
  replace (Z.to_nat max_attempts)
    with (k + S (Z.to_nat max_attempts - S k))%nat by lia.
  rewrite (poll_loop_open_prefix _ _ _ _ _ Hi Hp). cbv zeta.
  rewrite (poll_loop_S _ _ _ _ _ Hv). cbv zeta.
  assert (Hverdict : verdict record = Some (Return (Some record))).
  { unfold status_field in Hdone. unfold verdict.
    destruct record as [| | | | | |d]; try (destruct Hdone; discriminate).
    destruct Hdone as [H|H]; rewrite H; reflexivity. }
  rewrite Hverdict. reflexivity.
Qed.

(** X8. A stored document that is valid JSON but no object (an array, a
    number, a string, [null]) is handed to [poll_result] as it is, and the
    loop fails on it: [poll_result] raises AttributeError at its first
    attempt, after one read. *)
Theorem poll_result_raises_on_non_object task_id poll_interval max_attempts verbose
    w document :
  (0 < max_attempts)%Z ->
  stored_document (backend w) task_id = Some document ->
  (forall d, document <> VDict d) ->
  exists message,
    poll_result task_id poll_interval max_attempts verbose w
    = Outcome (Raise (Exception (py "AttributeError") message))
              w [CallGet (get_task_key task_id)].
Proof.
  intros Hm Hdoc Hnd. eexists. unfold poll_result.
  destruct (Z.to_nat max_attempts) as [|n] eqn:En; [lia|].
  assert (Hv : res (get_task_status task_id w) = Return document).
  { destruct (get_task_status_shape task_id w) as (v & E).
    revert E. rewrite get_task_status_outcome. cbv zeta.
    unfold stored_document in Hdoc.
    destruct (redis_fault (backend w)); [discriminate|].
    destruct (redis_lookup (backend w) (get_task_key task_id)) as [[|c text]|];
      try discriminate.
    rewrite Hdoc. reflexivity. }
  rewrite (poll_loop_S _ _ _ _ _ Hv). cbv zeta.
  destruct document as [| | | | | |d]; try reflexivity.
  destruct (Hnd d eq_refl).
Qed.

Lemma poll_loop_open_timeout n task_id poll_interval : forall w,
  (0 <= poll_interval)%Z ->
  stays_open n task_id poll_interval w = true ->
  poll_loop n task_id poll_interval w
  = Outcome (Return None) (after_sleeps n poll_interval w)
            (attempts n task_id poll_interval).
Proof.
  intros w Hi Hp. rewrite <- (Nat.add_0_r n) at 1.
  rewrite (poll_loop_open_prefix _ _ _ _ _ Hi Hp). cbn [poll_loop ret].
  cbv zeta. cbn [res final trace]. rewrite app_nil_r. reflexivity.
Qed.

Lemma after_sleeps_redis_now n secs : forall w,
  (0 <= secs)%Z ->
  (forall i b, redis_now (others w i b) = redis_now b) ->
  redis_now (backend (after_sleeps n secs w))
  = (redis_now (backend w) + Z.of_nat n * secs)%Z.
Proof.
  induction n as [|n IH]; intros w Hs Hq; [cbn [after_sleeps]; lia|].
  cbn [after_sleeps]. rewrite IH.
  - unfold time_sleep. rewrite (proj2 (Z.ltb_ge _ _) Hs).
    cbn [final backend]. rewrite Hq. cbn [with_redis_now redis_now]. lia.
  - exact Hs.
  - rewrite time_sleep_others. exact Hq.
Qed.

(** X9. For every number [n] of attempts: when the record is open at each of
    the [n] polling instants, [poll_result] with [max_attempts = n] returns
    [None] after exactly [n] reads, each followed by a sleep, the last one
    included; when the other clients leave the server clock alone the call
    has taken [n * poll_interval] seconds of server time. *)
Theorem poll_result_times_out_while_open n task_id poll_interval verbose w :
  (0 <= poll_interval)%Z ->
  stays_open n task_id poll_interval w = true ->
  (forall i b, redis_now (others w i b) = redis_now b) ->
  let o := poll_result task_id poll_interval (Z.of_nat n) verbose w in
  res o = Return None /\
  trace o = attempts n task_id poll_interval /\
  length (List.filter (fun c => match c with CallGet _ => true | _ => false end)
                 (trace o)) = n /\
  final o = after_sleeps n poll_interval w /\
  redis_now (backend (final o))
  = (redis_now (backend w) + Z.of_nat n * poll_interval)%Z.
Proof.
  intros Hi Hp Hq. cbv zeta. unfold poll_result. rewrite Nat2Z.id.
  rewrite (poll_loop_open_timeout _ _ _ _ Hi Hp). cbn [res final trace].
  repeat split.
  - clear. induction n as [|n IH]; [reflexivity|].
    cbn [attempts List.filter length]. rewrite IH. reflexivity.
  - apply after_sleeps_redis_now; assumption.
Qed.

(** X10. A negative [poll_interval] is not checked on entry: with an open
    record [poll_result] reads the store once and then raises the ValueError
    of [time.sleep]. *)
Theorem poll_result_negative_interval task_id poll_interval max_attempts verbose w :
  (poll_interval < 0)%Z ->
  (0 < max_attempts)%Z ->
  open_now (backend w) task_id = true ->
  poll_result task_id poll_interval max_attempts verbose w
  = Outcome (Raise (Exception (py "ValueError")
                      (py "sleep length must be non-negative")))
            w [CallGet (get_task_key task_id); CallSleep poll_interval].
Proof.
  intros Hi Hm Ho. unfold poll_result.
  destruct (Z.to_nat max_attempts) as [|n] eqn:En; [lia|].
  destruct (open_verdict _ _ Ho) as (v & Hv & Hverdict).
  rewrite (poll_loop_S _ _ _ _ _ Hv). cbv zeta. rewrite Hverdict.
  unfold time_sleep. rewrite (proj2 (Z.ltb_lt _ _) Hi). reflexivity.
Qed.

(** ** [submit_and_wait] *)

Section SubmitAndWait.
Variable settings : Settings.

(** X11. When [create_task] raises, [submit_and_wait] raises the same
  exception and never polls: its calls are those of [create_task], none of
  them a read or a sleep. *)
Theorem submit_and_wait_create_failure prompt metadata poll_interval max_attempts w e :
res (create_task settings prompt metadata w) = Raise e ->
let o := submit_and_wait settings prompt metadata poll_interval max_attempts w in
o = Outcome (Raise e) (final (create_task settings prompt metadata w))
            (trace (create_task settings prompt metadata w)) /\
Forall (fun c => ~ reads_and_sleeps c) (trace o).
Proof.
intros He. cbv zeta. unfold submit_and_wait, submit_request.
unfold mbind, M_bind, bind. rewrite He. split; [reflexivity|].
cbn [trace]. revert He. rewrite create_task_outcome. cbv zeta.
destruct (redis_fault (backend w)).
{ intros _. repeat constructor; intros []. }
destruct (TASK_TTL settings <=? 0)%Z.
{ intros _. repeat constructor; intros []. }
destruct (channel_fault (backend w)); intros _; repeat constructor; intros [].
Qed.

(** X12. [submit_and_wait] returns the finished record: when [create_task]
  returns an id, the record of that id is open at the first [k] polling
  instants and attempt [k + 1], within [max_attempts], reads it COMPLETED
  or FAILED, the call returns that record; its calls are those of
  [create_task], [k] reads each followed by a sleep, and one more read. *)
Theorem submit_and_wait_returns_finished_record k prompt metadata poll_interval
  max_attempts w task_id record :
(0 <= poll_interval)%Z ->
(Z.of_nat k < max_attempts)%Z ->
res (create_task settings prompt metadata w) = Return task_id ->
stays_open k task_id poll_interval
  (final (create_task settings prompt metadata w)) = true ->
res (get_task_status task_id
       (after_sleeps k poll_interval
          (final (create_task settings prompt metadata w)))) = Return record ->
status_field record = Some (VStr STATUS_COMPLETED) \/
status_field record = Some (VStr STATUS_FAILED) ->
submit_and_wait settings prompt metadata poll_interval max_attempts w
= Outcome (Return (Some record))
          (after_sleeps k poll_interval
             (final (create_task settings prompt metadata w)))
          (trace (create_task settings prompt metadata w)
           ++ attempts k task_id poll_interval
           ++ [CallGet (get_task_key task_id)]).
Proof.
intros Hi Hk Hc Hp Hv Hdone. unfold submit_and_wait, submit_request.
unfold mbind, M_bind, bind. rewrite Hc.
unfold poll_result.
replace (Z.to_nat max_attempts)
  with (k + S (Z.to_nat max_attempts - S k))%nat by lia.
rewrite (poll_loop_open_prefix _ _ _ _ _ Hi Hp). cbv zeta.
rewrite (poll_loop_S _ _ _ _ _ Hv). cbv zeta.
assert (Hverdict : verdict record = Some (Return (Some record))).
{ unfold status_field in Hdone. unfold verdict.
  destruct record as [| | | | | |d]; try (destruct Hdone; discriminate).
  destruct Hdone as [H|H]; rewrite H; reflexivity. }
rewrite Hverdict. cbn [res final trace ret]. rewrite app_nil_r. reflexivity.
Qed.

End SubmitAndWait.

(** ** More on the JSON text *)

Module JsonEdges.
Import Encoder Decoder.

(** A text that starts with the byte order mark is rejected either way. *)
Lemma json_loads_decode s : json_loads s = decode s.
Proof.
unfold json_loads. destruct s as [|c s']; [reflexivity|].
destruct c as [|p]; [reflexivity|].
repeat (destruct p as [p|p|]; try reflexivity).
Qed.

Lemma is_ws_cases c : is_ws c = true -> c = 32 \/ c = 9 \/ c = 10 \/ c = 13.
Proof.
unfold is_ws. chars. intros H.
repeat (apply orb_true_iff in H; destruct H as [H|H]);
  apply N.eqb_eq in H; auto.
Qed.

Lemma skip_ws_blanks before s :
forallb is_ws before = true -> skip_ws (before ++ s) = skip_ws s.
Proof.
induction before as [|c before IH]; intros H; [reflexivity|].
cbn [forallb] in H. apply andb_true_iff in H. destruct H as [Hc H].
cbn [app skip_ws]. rewrite Hc. apply IH, H.
Qed.

Lemma number_end_blanks after :
forallb is_ws after = true -> number_end after = true.
Proof.
destruct after as [|c after]; [reflexivity|]. cbn [forallb]. intros H.
apply andb_true_iff in H. destruct H as [Hc _].
apply is_ws_cases in Hc. unfold number_end, is_digit. chars.
destruct Hc as [ -> | [ -> | [ -> | -> ]]]; reflexivity.
Qed.

(** X13. [json.loads] reads a document back from the text [json.dumps] wrote
  also when blanks (spaces, tabs, line feeds, carriage returns) surround
  the text: every value that JSON carries faithfully, of any type and
  nesting, is recovered as it was. *)
Theorem json_loads_ignores_blanks v before after :
wf_value v = true ->
forallb is_ws before = true ->
forallb is_ws after = true ->
json_loads (before ++ json_dumps v ++ after) = Some v.
Proof.
intros Hwf Hb Ha. unfold json_dumps.
rewrite json_loads_decode.
unfold decode. rewrite (skip_ws_blanks _ _ Hb).
rewrite skip_ws_iterencode by assumption.
rewrite (scan_once_iterencode v Hwf after _ (number_end_blanks _ Ha))
  by (rewrite !length_app; lia).
rewrite <- (app_nil_r after), (skip_ws_blanks _ _ Ha). reflexivity.
Qed.

Lemma printable_hexdigit d : d < 16 -> printable (hexdigit d) = true.
Proof.
intros Hd. unfold printable, hexdigit. chars.
destruct (d <? 10) eqn:E; nbool; ncmp; reflexivity.
Qed.

Lemma printable_u_escape n : forallb printable (u_escape n) = true.
Proof.
unfold u_escape. cbn [forallb].
rewrite !printable_hexdigit by (apply N.mod_lt; lia). reflexivity.
Qed.

Lemma printable_replace c : forallb printable (replace c) = true.
Proof.
unfold replace.
repeat match goal with
       | |- context [if ?b then _ else _] =>
           match b with
           | context [c] => destruct b eqn:?
           end
       end;
  try reflexivity;
  try apply printable_u_escape.
- nbool. cbn [forallb]. unfold printable. chars. ncmp. reflexivity.
- cbv zeta. rewrite forallb_app, !printable_u_escape. reflexivity.
Qed.

Lemma printable_escape_ascii s : forallb printable (escape_ascii s) = true.
Proof.
unfold escape_ascii. induction s as [|c s IH]; [reflexivity|].
cbn [flat_map]. rewrite forallb_app, printable_replace, IH. reflexivity.
Qed.

Lemma printable_string s :
forallb printable (encode_basestring_ascii s) = true.
Proof.
unfold encode_basestring_ascii. cbn [forallb].
rewrite forallb_app, printable_escape_ascii. reflexivity.
Qed.

Lemma printable_uint u : forallb printable (uint_chars u) = true.
Proof. induction u; cbn [uint_chars forallb]; rewrite ?IHu; reflexivity. Qed.

Lemma printable_intstr z : forallb printable (intstr z) = true.
Proof.
unfold intstr. destruct (Z.to_int z); cbn [forallb];
  rewrite printable_uint; reflexivity.
Qed.

Lemma printable_digit c : is_digit c = true -> printable c = true.
Proof. unfold is_digit, printable. chars. intros H. nbool. ncmp. reflexivity. Qed.

Lemma printable_span_digits s : forall ds r,
span_digits s = (ds, r) -> forallb printable ds = true.
Proof.
induction s as [|c s IH]; intros ds r Hs.
- cbn in Hs. injection Hs as <- <-. reflexivity.
- rewrite span_digits_cons in Hs. destruct (is_digit c) eqn:Ec.
  + destruct (span_digits s) as [ds' r'] eqn:E. injection Hs as <- <-.
    cbn [forallb]. rewrite (printable_digit _ Ec), (IH _ _ eq_refl).
    reflexivity.
  + injection Hs as <- <-. reflexivity.
Qed.

Lemma printable_match_integer s i r :
match_integer s = Some (i, r) -> forallb printable i = true.
Proof.
assert (Hbody : forall sign s0,
          forallb printable sign = true ->
          match s0 with
          | c :: s' =>
              if c =? ZERO then Some (sign ++ [ZERO], s')
              else if is_digit c then
                     let (ds, rest) := span_digits s0 in Some (sign ++ ds, rest)
                   else None
          | [] => None
          end = Some (i, r) -> forallb printable i = true).
{ intros sign s0 Hsign H. destruct s0 as [|c s']; [discriminate|].
  destruct (c =? ZERO).
  - injection H as <- _. rewrite forallb_app, Hsign. reflexivity.
  - destruct (is_digit c); [|discriminate].
    destruct (span_digits (c :: s')) as [ds rest] eqn:E.
    injection H as <- _. rewrite forallb_app, Hsign.
    apply (printable_span_digits _ _ _ E). }
unfold match_integer. destruct s as [|c s'].
- apply (Hbody [] []). reflexivity.
- destruct (c =? MINUS).
  + apply (Hbody [MINUS] s'). reflexivity.
  + apply (Hbody [] (c :: s')). reflexivity.
Qed.

Lemma printable_match_frac s f r :
match_frac s = (f, r) -> forallb printable (opt_str f) = true.
Proof.
unfold match_frac. destruct s as [|c s']; [intros [= <- _]; reflexivity|].
destruct (c =? DOT); [|intros [= <- _]; reflexivity].
destruct (span_digits s') as [[|d ds] rest] eqn:E;
  intros [= <- _]; [reflexivity|].
cbn [opt_str default forallb]. change (forallb printable (d :: ds) = true).
apply (printable_span_digits _ _ _ E).
Qed.

Lemma printable_match_exp s e r :
match_exp s = (e, r) -> forallb printable (opt_str e) = true.
Proof.
unfold match_exp. destruct s as [|c s']; [intros [= <- _]; reflexivity|].
destruct ((c =? 101) || (c =? 69)) eqn:Ec; [|intros [= <- _]; reflexivity].
assert (Hc : printable c = true).
{ unfold printable. chars. nbool. destruct Ec; nbool; subst; reflexivity. }
assert (Hbody : forall esign s'',
          forallb printable esign = true ->
          match span_digits s'' with
          | ([], _) => (None, c :: s')
          | (ds, rest) => (Some (c :: esign ++ ds), rest)
          end = (e, r) -> forallb printable (opt_str e) = true).
{ intros esign s'' Hsign.
  destruct (span_digits s'') as [[|d ds] rest] eqn:E;
    intros [= <- _]; [reflexivity|].
  change (forallb printable (c :: esign ++ d :: ds) = true).
  cbn [forallb]. rewrite Hc, forallb_app, Hsign.
  apply (printable_span_digits _ _ _ E). }
destruct s' as [|d r'].
- apply (Hbody [] []). reflexivity.
- destruct ((d =? MINUS) || (d =? PLUS)) eqn:Ed.
  + apply (Hbody [d] r'). cbn [forallb]. unfold printable. chars. nbool.
    destruct Ed; nbool; subst; reflexivity.
  + apply (Hbody [] (d :: r')). reflexivity.
Qed.

Lemma printable_float f : float_ok f = true -> forallb printable (floatstr f) = true.
Proof.
destruct f as [lit| | |]; try reflexivity.
cbn [float_ok floatstr]. unfold float_literal. intros H.
destruct (match_number lit) as [[[[i fr] ex] r]|] eqn:Hm; [|discriminate].
rewrite (match_number_eq _ _ _ _ _ Hm).
assert (Hr : r = []).
{ destruct fr; [destruct r|destruct ex; [destruct r|]];
    congruence || discriminate. }
subst r. unfold match_number in Hm.
destruct (match_integer lit) as [[i' s1]|] eqn:Ei; [|discriminate].
destruct (match_frac s1) as [fr' s2] eqn:Ef.
destruct (match_exp s2) as [ex' s3] eqn:Ee.
injection Hm as <- <- <- _.
rewrite !forallb_app.
rewrite (printable_match_integer _ _ _ Ei), (printable_match_frac _ _ _ Ef),
  (printable_match_exp _ _ _ Ee). reflexivity.
Qed.

(** X14. The text that [json.dumps] writes for the record and for the
  message body is plain printable ASCII, code points 32 to 126, whatever
  characters the prompt and the metadata contain: so is the encoding of
  every value whose finite floats are number literals. *)
Theorem json_dumps_printable v :
wf_value v = true -> forallb printable (json_dumps v) = true.
Proof.
unfold json_dumps.
induction v as [|b|z|f|s|l IHl|d IHd] using value_nested_ind; intros Hwf.
- reflexivity.
- destruct b; reflexivity.
- apply printable_intstr.
- apply printable_float, Hwf.
- apply printable_string.
- destruct l as [|x l]; [reflexivity|].
  rewrite iterencode_list. cbn [forallb]. rewrite !forallb_app.
  apply wf_list_cons in Hwf. destruct Hwf as [Hx Hl].
  apply Forall_cons in IHl. destruct IHl as [IHx IHl].
  rewrite (IHx Hx). cbn [forallb andb].
  replace (forallb printable (list_tail l)) with true; [reflexivity|].
  symmetry. clear Hx IHx x. induction l as [|y l IH]; [reflexivity|].
  rewrite list_tail_cons, !forallb_app.
  apply wf_list_cons in Hl. destruct Hl as [Hy Hl].
  apply Forall_cons in IHl. destruct IHl as [IHy IHl].
  rewrite (IHy Hy), (IH IHl Hl). reflexivity.
- destruct d as [|[k x] d]; [reflexivity|].
  rewrite iterencode_dict. cbn [forallb]. rewrite !forallb_app.
  apply wf_dict_cons in Hwf. destruct Hwf as (_ & Hx & Hd).
  apply Forall_cons in IHd. destruct IHd as [IHx IHd]. cbn [snd] in IHx.
  rewrite printable_string, (IHx Hx). cbn [forallb andb].
  replace (forallb printable (dict_tail d)) with true; [reflexivity|].
  symmetry. clear Hx IHx x k. induction d as [|[k y] d IH]; [reflexivity|].
  rewrite dict_tail_cons, !forallb_app.
  apply wf_dict_cons in Hd. destruct Hd as (_ & Hy & Hd).
  apply Forall_cons in IHd. destruct IHd as [IHy IHd]. cbn [snd] in IHy.
  rewrite printable_string, (IHy Hy), (IH IHd Hd). reflexivity.
Qed.

Lemma replace_surrogate c :
0xd800 <= c -> c <= 0xdfff -> replace c = u_escape c.
Proof. intros H1 H2. unfold replace. chars. ncmp. reflexivity. Qed.

Lemma decode_four n rest :
n < 65536 ->
decode_uXXXX (hexdigit (N.shiftr n 12 mod 16) :: hexdigit (N.shiftr n 8 mod 16)
              :: hexdigit (N.shiftr n 4 mod 16) :: hexdigit (n mod 16) :: rest)
= Some (n, rest).
Proof.
intros Hn. destruct (decode_u_escape n Hn) as (h & E & H).
unfold u_escape in E. injection E as <-. apply (H rest).
Qed.

(** X15. Text does not always survive the round trip: a string made of a
  high surrogate followed by a low surrogate, two code points, is written
  as two [\u] escapes and read back as the one character that the pair
  encodes in UTF-16. *)
Theorem surrogate_pair_is_merged high low :
is_high_surrogate high = true ->
is_low_surrogate low = true ->
json_loads (json_dumps (VStr [high; low]))
= Some (VStr [0x10000 + N.lor (N.shiftl (high - 0xd800) 10) (low - 0xdc00)]).
Proof.
unfold is_high_surrogate, is_low_surrogate. intros Hh Hl. nbool.
unfold json_dumps. cbn [iterencode]. unfold encode_basestring_ascii, escape_ascii.
cbn [flat_map]. rewrite !replace_surrogate by lia. unfold u_escape.
cbn [app]. rewrite json_loads_decode.
unfold decode. rewrite skip_ws_quote. cbn [length].
rewrite scan_once_string. cbn [length].
rewrite scanstring_S. chars. ncmp.
rewrite decode_four by lia. ncmp. cbn [andb].
rewrite !strip_prefix_cons. ncmp. cbn [strip_prefix].
rewrite decode_four by lia. ncmp. cbn [andb app].
rewrite scanstring_S. chars. ncmp. reflexivity.
Qed.

End JsonEdges.

(** ** Batches *)

Lemma next_task_ids_S n w w' :
  urandom w' = urandom w ->
  urandom_calls w' = S (urandom_calls w) ->
  next_task_ids (S n) w = next_task_id w :: next_task_ids n w'.
Proof.
  intros Hu Hc. unfold next_task_ids, next_task_id.
  cbn [seq map]. rewrite Nat.add_0_r. f_equal.
  rewrite <- seq_shift, map_map. apply map_ext. intros k.
  rewrite Hu, Hc, Nat.add_succ_r. reflexivity.
Qed.

Section Batches.
Variable settings : Settings.
Variable metadata_of : Z -> option (list (pystr * value)).

Lemma create_each_up prompts : forall i task_ids w,
redis_fault (backend w) = None ->
channel_fault (backend w) = None ->
(0 < TASK_TTL settings)%Z ->
let o := create_each settings metadata_of i prompts task_ids w in
res o = Return (task_ids ++ next_task_ids (length prompts) w) /\
map message_id (published (backend (final o)))
= map message_id (published (backend w)) ++ next_task_ids (length prompts) w /\
(forall key, is_Some (redis_data (backend w) !! key) ->
             is_Some (redis_data (backend (final o)) !! key)) /\
(forall task_id, task_id ∈ next_task_ids (length prompts) w ->
   is_Some (redis_data (backend (final o)) !! get_task_key task_id)) /\
length (trace o) = (2 * length prompts)%nat /\
Forall (fun c => ~ reads_and_sleeps c) (trace o).
Proof.
induction prompts as [|prompt rest IH]; intros i task_ids w Hr Hc Httl.
- cbv zeta. cbn [create_each ret res final trace length next_task_ids seq map].
  rewrite !app_nil_r. repeat split; auto.
  intros task_id H. apply elem_of_nil in H. destruct H.
- cbv zeta. cbn [create_each]. unfold mbind, M_bind, bind.
  rewrite create_task_outcome. cbv zeta.
  rewrite Hr, Hc, (proj2 (Z.leb_gt _ _) Httl). cbn [res final trace].
  set (w1 := with_backend _ (drawn w)).
  specialize (IH (i + 1)%Z (task_ids ++ [next_task_id w]) w1 Hr Hc Httl).
  cbv zeta in IH. destruct IH as (Hres & Hpub & Hkeep & Hnew & Hlen & Hcalls).
  change (length (prompt :: rest)) with (S (length rest)).
  rewrite (next_task_ids_S (length rest) w w1 eq_refl eq_refl).
  assert (Hkey : redis_data (backend w1)
                 = <[get_task_key (next_task_id w) :=
                       (json_dumps (next_payload prompt (metadata_of i) w),
                        (redis_now (backend w) + TASK_TTL settings)%Z)]>
                     (redis_data (backend w))) by reflexivity.
  repeat split.
  + rewrite Hres, <- app_assoc. reflexivity.
  + rewrite Hpub. subst w1.
    cbn [backend with_backend with_published published].
    rewrite map_app, <- app_assoc. reflexivity.
  + intros key Hk. apply Hkeep. rewrite Hkey.
    apply lookup_insert_is_Some'. right. exact Hk.
  + intros task_id Hin. apply elem_of_cons in Hin. destruct Hin as [->|Hin].
    * apply Hkeep. rewrite Hkey. apply lookup_insert_is_Some'. left. reflexivity.
    * apply Hnew, Hin.
  + cbn [length app]. rewrite Hlen. cbn [length]. lia.
  + cbn [app]. repeat (constructor; [intros []|]). exact Hcalls.
Qed.

End Batches.

(** X16. With both servers up and a positive expiry time, the loop of [main]
    creates one task per prompt, in the order of the prompts: it returns as
    many ids as there are prompts, the ids of the successive [uuid4] draws;
    the queue grows by one message per prompt, in the same order, each
    carrying its task id; every record is in the store when the loop ends;
    and the loop makes two calls per prompt, none of them a read or a
    sleep. *)
Theorem main_requests_one_task_per_prompt settings test_prompts w :
  redis_fault (backend w) = None ->
  channel_fault (backend w) = None ->
  (0 < TASK_TTL settings)%Z ->
  let o := main_requests settings test_prompts w in
  let task_ids := next_task_ids (length test_prompts) w in
  res o = Return task_ids /\
  length task_ids = length test_prompts /\
  map message_id (published (backend (final o)))
  = map message_id (published (backend w)) ++ task_ids /\
  (forall task_id, task_id ∈ task_ids ->
     is_Some (redis_data (backend (final o)) !! get_task_key task_id)) /\
  length (trace o) = (2 * length test_prompts)%nat.
Proof.
  intros Hr Hc Httl. cbv zeta. unfold main_requests.
  destruct (create_each_up settings
              (fun i => Some [(py "request_number", VInt i);
                              (py "source", VStr (py "api_test"))])
              test_prompts 1%Z [] w Hr Hc Httl)
    as (Hres & Hpub & _ & Hnew & Hlen & _).
  repeat split; try assumption.
  unfold next_task_ids. rewrite length_map, length_seq. reflexivity.
Qed.

Lemma poll_loop_result n task_id : forall w,
  (exists r, res (poll_loop n task_id 1 w) = Return r) \/
  (exists message,
     res (poll_loop n task_id 1 w)
     = Raise (Exception (py "AttributeError") message)).
Proof.
  induction n as [|n IH]; intros w.
  - left. eexists. reflexivity.
  - destruct (get_task_status_shape task_id w) as (v & E).
    assert (Hv : res (get_task_status task_id w) = Return v)
      by (rewrite E; reflexivity).
    rewrite (poll_loop_S _ _ _ _ _ Hv). cbv zeta.
    destruct (verdict v) as [r|] eqn:Ev.
    + cbn [res]. unfold verdict in Ev.
      destruct v as [| | | | | |d];
        try (injection Ev as <-; right; eexists; reflexivity).
      left. revert Ev.
      repeat match goal with
             | |- context [if ?b then _ else _] => destruct b
             end; intros [= <-]; eexists; reflexivity.
    + destruct (time_sleep_ok 1 w ltac:(lia)) as [Hs _]. rewrite Hs.
      cbn [res]. apply IH.
Qed.

Lemma poll_each_reads task_ids : forall results w,
  Forall reads_and_sleeps (trace (poll_each task_ids results w)) /\
  (forall rs, res (poll_each task_ids results w) = Return rs ->
     length rs = (length results + length task_ids)%nat) /\
  ((exists rs, res (poll_each task_ids results w) = Return rs) \/
   (exists message,
      res (poll_each task_ids results w)
      = Raise (Exception (py "AttributeError") message))).
Proof.
  induction task_ids as [|task_id rest IH]; intros results w.
  - cbn [poll_each ret res trace length]. repeat split.
    + constructor.
    + intros rs [= <-]. lia.
    + left. eexists. reflexivity.
  - cbn [poll_each]. unfold mbind, M_bind, bind, poll_result.
    destruct (poll_loop_world (Z.to_nat 30) task_id 1 w) as (k & _ & _ & Ht).
    destruct (poll_loop_result (Z.to_nat 30) task_id w) as [[r Hr]|[m Hr]];
      rewrite Hr.
    + destruct (IH (results ++ [r])
                   (final (poll_loop (Z.to_nat 30) task_id 1 w)))
        as (Hcalls & Hlen & Hres).
      cbn [res trace]. repeat split.
      * apply Forall_app. split; assumption.
      * intros rs Hrs. rewrite (Hlen rs Hrs), length_app. cbn [length]. lia.
      * exact Hres.
    + cbn [res trace]. repeat split; [exact Ht|discriminate|].
      right. eexists. reflexivity.
Qed.

(** X17. [test_multiple_requests] submits every prompt before it waits for
    any task: with both servers up and a positive expiry time its calls are
    two calls per prompt that write and enqueue, followed only by reads and
    sleeps.  It ends with one result per prompt, or with the AttributeError
    that a stored document that is no object causes; nothing else is
    raised. *)
Theorem test_multiple_requests_submits_then_polls settings prompts w :
  redis_fault (backend w) = None ->
  channel_fault (backend w) = None ->
  (0 < TASK_TTL settings)%Z ->
  let o := test_multiple_requests settings prompts w in
  (exists submitting polling,
     trace o = submitting ++ polling /\
     length submitting = (2 * length prompts)%nat /\
     Forall (fun c => ~ reads_and_sleeps c) submitting /\
     Forall reads_and_sleeps polling) /\
  ((exists results, res o = Return results /\ length results = length prompts) \/
   (exists message, res o = Raise (Exception (py "AttributeError") message))).
Proof.
  intros Hr Hc Httl. cbv zeta. unfold test_multiple_requests, submit_all.
  destruct (create_each_up settings
              (fun i => Some [(py "batch_id", VStr (py "test2"));
                              (py "order", VInt i)])
              prompts 1%Z [] w Hr Hc Httl)
    as (Hres & _ & _ & _ & Hlen & Hcalls).
  unfold mbind, M_bind, bind. rewrite Hres. cbn [res trace app].
  set (o1 := create_each settings _ 1%Z prompts [] w) in *.
  destruct (poll_each_reads (next_task_ids (length prompts) w) [] (final o1))
    as (Hreads & Hcount & Hend).
  split.
  - eexists _, _. split; [reflexivity|]. repeat split; assumption.
  - destruct Hend as [[rs Hrs]|Hraise]; [left|right; exact Hraise].
    exists rs. split; [exact Hrs|]. rewrite (Hcount rs Hrs).
    unfold next_task_ids. rewrite length_map, length_seq. reflexivity.
Qed.

(** ** Task ids *)

Lemma nibble_bits x k i :
  N.testbit (N.shiftr x k mod 16) i
  = N.testbit x (i + k) && (i <? 4).
Proof.
  change 16 with (2 ^ 4). rewrite <- N.land_ones, N.land_spec, N.shiftr_spec'.
  f_equal. destruct (i <? 4) eqn:E; nbool.
  - apply N.ones_spec_low. exact E.
  - apply N.ones_spec_high. exact E.
Qed.

Lemma shiftl_bit a n m :
  N.testbit (N.shiftl a n) m = (n <=? m) && N.testbit a (m - n).
Proof.
  destruct (n <=? m) eqn:E; nbool.
  - apply N.shiftl_spec_high'. exact E.
  - apply N.shiftl_spec_low. exact E.
Qed.

Lemma uuid_int_bit random i :
  N.testbit (uuid_int random) i =
  if (76 <=? i) && (i <? 80) then i =? 78
  else if i =? 63 then true
  else if i =? 62 then false
  else N.testbit (random mod 2 ^ 128) i.
Proof.
  unfold uuid_int. cbv zeta.
  rewrite N.lor_spec, N.ldiff_spec, N.lor_spec, N.ldiff_spec.
  rewrite !shiftl_bit.
  assert (H4 : forall j, N.testbit 4 j = (j =? 2)).
  { intros j. destruct (j =? 2) eqn:E; nbool; [subst; reflexivity|].
    destruct j as [|[[|[]|]|[|[]|]|]]; try reflexivity; try lia. }
  assert (Hf : forall j, N.testbit 0xf000 j = (12 <=? j) && (j <? 16)).
  { intros j. destruct (j <? 16) eqn:E; nbool.
    - destruct j as [|[[[[|[]|]|[|[]|]|]|[[|[]|]|[|[]|]|]|]|[[[|[]|]|[|[]|]|]|[[|[]|]|[|[]|]|]|]|]];
        try reflexivity; lia.
    - rewrite andb_false_r. apply N.bits_above_log2. cbn. lia. }
  assert (Hc : forall j, N.testbit 0xc000 j = (14 <=? j) && (j <? 16)).
  { intros j. destruct (j <? 16) eqn:E; nbool.
    - destruct j as [|[[[[|[]|]|[|[]|]|]|[[|[]|]|[|[]|]|]|]|[[[|[]|]|[|[]|]|]|[[|[]|]|[|[]|]|]|]|]];
        try reflexivity; lia.
    - rewrite andb_false_r. apply N.bits_above_log2. cbn. lia. }
  assert (H8 : forall j, N.testbit 0x8000 j = (j =? 15)).
  { intros j. destruct (j <? 16) eqn:E; nbool.
    - destruct j as [|[[[[|[]|]|[|[]|]|]|[[|[]|]|[|[]|]|]|]|[[[|[]|]|[|[]|]|]|[[|[]|]|[|[]|]|]|]|]];
        try reflexivity; lia.
    - rewrite (eqb_false j 15) by lia. apply N.bits_above_log2. cbn. lia. }
  rewrite H4, Hf, Hc, H8.
  destruct ((76 <=? i) && (i <? 80)) eqn:E1.
  - nbool. rewrite (leb_true 76 i), (leb_true 64 i) by lia.
    replace (12 <=? i - 64) with true by (symmetry; apply N.leb_le; lia).
    replace (i - 64 <? 16) with true by (symmetry; apply N.ltb_lt; lia).
    cbn [andb negb]. rewrite andb_false_r. cbn [orb].
    destruct (i =? 78) eqn:E; nbool.
    + subst. reflexivity.
    + apply N.eqb_neq. lia.
  - replace ((76 <=? i) && (i - 76 =? 2)) with false.
    2:{ symmetry. apply andb_false_iff. destruct (76 <=? i) eqn:E; [right|left; reflexivity].
        nbool. apply N.eqb_neq. destruct E1 as [E1|E1]; nbool; lia. }
    rewrite orb_false_r.
    replace ((64 <=? i) && ((12 <=? i - 64) && (i - 64 <? 16))) with false.
    2:{ symmetry. destruct (64 <=? i) eqn:E; [|reflexivity]. cbn [andb].
        nbool. apply andb_false_iff.
        destruct E1 as [E1|E1]; nbool; [left; apply N.leb_gt|right; apply N.ltb_ge]; lia. }
    cbn [negb]. rewrite andb_true_r.
    destruct (i =? 63) eqn:E63.
    { nbool. subst. rewrite orb_true_r. reflexivity. }
    replace ((48 <=? i) && (i - 48 =? 15)) with false.
    2:{ symmetry. apply andb_false_iff. right. nbool. apply N.eqb_neq. lia. }
    rewrite orb_false_r.
    destruct (i =? 62) eqn:E62.
    { nbool. subst. rewrite andb_false_r. reflexivity. }
    replace ((48 <=? i) && ((14 <=? i - 48) && (i - 48 <? 16))) with false.
    2:{ symmetry. destruct (48 <=? i) eqn:E; [|reflexivity]. cbn [andb].
        nbool. apply andb_false_iff.
        destruct (14 <=? i - 48) eqn:E14; [right|left; reflexivity].
        nbool. apply N.ltb_ge. lia. }
    cbn [negb]. rewrite andb_true_r. reflexivity.
Qed.

(** [str(uuid)] spelled out: 32 hexadecimal digits, most significant first,
    in groups of 8, 4, 4, 4 and 12. *)
Lemma uuid_str_chars int :
  uuid_str int =
  let h := fun k => Encoder.hexdigit (N.shiftr int k mod 16) in
   [h 124; h 120; h 116; h 112; h 108; h 104; h 100; h 96; MINUS; h 92;
    h 88; h 84; h 80; MINUS; h 76; h 72; h 68; h 64; MINUS; h 60; h 56;
    h 52; h 48; MINUS; h 44; h 40; h 36; h 32; h 28; h 24; h 20; h 16;
    h 12; h 8; h 4; h 0].
Proof. reflexivity. Qed.

Lemma version_nibble random : N.shiftr (uuid_int random) 76 mod 16 = 4.
Proof.
  apply N.bits_inj. intros i. rewrite nibble_bits, uuid_int_bit.
  destruct (i <? 4) eqn:E; nbool.
  - rewrite (leb_true 76 (i + 76)), (ltb_true (i + 76) 80) by lia.
    cbn [andb]. rewrite andb_true_r.
    assert (Hi : i = 0 \/ i = 1 \/ i = 2 \/ i = 3) by lia.
    destruct Hi as [ -> | [ -> | [ -> | -> ]]]; reflexivity.
  - rewrite andb_false_r. symmetry. apply N.bits_above_log2. cbn. lia.
Qed.

Lemma variant_nibble random :
  exists n, N.shiftr (uuid_int random) 60 mod 16 = n /\
            (n = 8 \/ n = 9 \/ n = 10 \/ n = 11).
Proof.
  set (n := N.shiftr (uuid_int random) 60 mod 16). exists n.
  split; [reflexivity|].
  assert (Hlt : n < 16) by (apply N.mod_lt; lia).
  assert (H3 : N.testbit n 3 = true)
    by (unfold n; rewrite nibble_bits, uuid_int_bit; reflexivity).
  assert (H2 : N.testbit n 2 = false)
    by (unfold n; rewrite nibble_bits, uuid_int_bit; reflexivity).
  clearbody n. destruct n as [|p]; [discriminate H3|].
  do 4 (try destruct p as [p|p|]);
    try lia; try discriminate H3; try discriminate H2; auto.
Qed.

(** X18. Every task id is the text of a version 4 UUID: 36 characters,
    lower-case hexadecimal digits with a hyphen at positions 8, 13, 18 and
    23, the digit 4 at position 14 and one of 8, 9, a, b at position 19,
    whatever the random bytes are; it is printable ASCII, and JSON carries it
    unchanged. *)
Theorem task_id_format random :
  let task_id := uuid_str (uuid_int random) in
  length task_id = 36%nat /\
  task_id !! 8%nat = Some MINUS /\
  task_id !! 13%nat = Some MINUS /\
  task_id !! 18%nat = Some MINUS /\
  task_id !! 23%nat = Some MINUS /\
  task_id !! 14%nat = Some 52 /\
  (exists c, task_id !! 19%nat = Some c /\
             (c = 56 \/ c = 57 \/ c = 97 \/ c = 98)) /\
  forallb printable task_id = true /\
  json_loads (json_dumps (VStr task_id)) = Some (VStr task_id).
Proof.
  cbv zeta. split; [|split; [|split; [|split; [|split; [|split; [|split; [|split]]]]]]].
  - rewrite uuid_str_chars. reflexivity.
  - rewrite uuid_str_chars. reflexivity.
  - rewrite uuid_str_chars. reflexivity.
  - rewrite uuid_str_chars. reflexivity.
  - rewrite uuid_str_chars. reflexivity.
  - rewrite uuid_str_chars. cbv zeta.
    change (Some (Encoder.hexdigit (N.shiftr (uuid_int random) 76 mod 16))
            = Some 52).
    rewrite version_nibble. reflexivity.
  - rewrite uuid_str_chars. cbv zeta.
    destruct (variant_nibble random) as (n & E & Hn).
    exists (Encoder.hexdigit n). split.
    + rewrite <- E. reflexivity.
    + destruct Hn as [ -> | [ -> | [ -> | -> ]]]; auto.
  - rewrite uuid_str_chars. cbv zeta. cbn [forallb].
    rewrite !JsonEdges.printable_hexdigit by (apply N.mod_lt; lia).
    reflexivity.
  - apply json_loads_dumps. apply uuid_str_text.
Qed.

(** ** What [poll_result] hands back *)

Lemma verdict_returns v r :
  verdict v = Some (Return (Some r)) ->
  r = v /\
  (status_field v = Some (VStr STATUS_COMPLETED) \/
   status_field v = Some (VStr STATUS_FAILED)).
Proof.
  unfold verdict, status_field. destruct v as [| | | | | |d]; try discriminate.
  destruct (dict_lookup d (py "status")) as [st|] eqn:Est.
  - cbn [default from_option id].
    change (default (VStr (py "UNKNOWN")) (Some st)) with st.
    destruct (eq_str st STATUS_COMPLETED) eqn:Ec.
    { intros [= <-]. apply eq_str_true in Ec. subst st. auto. }
    destruct (eq_str st STATUS_FAILED) eqn:Ef.
    { intros [= <-]. apply eq_str_true in Ef. subst st. auto. }
    destruct (eq_str st (py "NOT_FOUND") || eq_str st (py "ERROR"));
      discriminate.
  - change (default (VStr (py "UNKNOWN")) None) with (VStr (py "UNKNOWN")).
    vm_compute. discriminate.
Qed.

Lemma poll_loop_finished n task_id poll_interval : forall w record,
  res (poll_loop n task_id poll_interval w) = Return (Some record) ->
  (status_field record = Some (VStr STATUS_COMPLETED) \/
   status_field record = Some (VStr STATUS_FAILED)) /\
  res (get_task_status task_id (final (poll_loop n task_id poll_interval w)))
  = Return record.
Proof.
  induction n as [|n IH]; intros w record; [discriminate|].
  destruct (get_task_status_shape task_id w) as (v & E).
  assert (Hv : res (get_task_status task_id w) = Return v)
    by (rewrite E; reflexivity).
  rewrite (poll_loop_S _ _ _ _ _ Hv). cbv zeta.
  destruct (verdict v) as [r|] eqn:Ev.
  - cbn [res final]. intros ->. apply verdict_returns in Ev.
    destruct Ev as [-> Hs]. split; assumption.
  - destruct (res (time_sleep poll_interval w)); [|discriminate].
    cbn [res final]. apply IH.
Qed.

(** X19. [poll_result] never hands back an unfinished record: whenever it
    returns a record, in any world and for any arguments, the status of that
    record is COMPLETED or FAILED, and the record is what [get_task_status]
    reads for the task at the moment of the return. *)
Theorem poll_result_returns_only_finished task_id poll_interval max_attempts
    verbose w record :
  res (poll_result task_id poll_interval max_attempts verbose w)
  = Return (Some record) ->
  (status_field record = Some (VStr STATUS_COMPLETED) \/
   status_field record = Some (VStr STATUS_FAILED)) /\
  res (get_task_status task_id
         (final (poll_result task_id poll_interval max_attempts verbose w)))
  = Return record.
Proof. unfold poll_result. apply poll_loop_finished. Qed.

(** ** Sample runs *)

Lemma create_task_frame_witness :
  redis_data (backend (final (create_task default_settings (py "hi") None
                                foreign_world))) !! get_task_key (py "x")
  = redis_data (backend foreign_world) !! get_task_key (py "x").
Proof.
  pose proof (create_task_frame default_settings (py "hi") None foreign_world)
    as H.
  cbv zeta in H. destruct H as [H _]. apply H. vm_compute. discriminate.
Defined.


Lemma created_record_expires_witness :
  res (get_task_status (next_task_id sample_world)
         (with_backend
            (with_redis_now (redis_now (backend sample_world) + 3600)%Z
               (backend (final (create_task default_settings (py "hi") None
                                  sample_world))))
            (final (create_task default_settings (py "hi") None sample_world))))
  = Return (not_found (next_task_id sample_world)).
Proof.
  pose proof (created_record_expires default_settings (py "hi") None
                sample_world 3600%Z eq_refl eq_refl) as H.
  cbv zeta in H. destruct H as [_ H]. rewrite H; [reflexivity|].
  simpl. lia.
Defined.

Lemma unreadable_value_ends_polling_witness :
  poll_result (py "x") 1 3 true (stored_text_world (py "{oops"))
  = Outcome (Return None) (stored_text_world (py "{oops"))
            [CallGet (get_task_key (py "x"))].
Proof.
  apply (unreadable_value_ends_polling (py "x") 1 3 true
           (stored_text_world (py "{oops")) (py "{oops"));
    [reflexivity | vm_compute; reflexivity | vm_compute; reflexivity | lia].
Defined.

Lemma poll_result_without_attempts_witness :
  poll_result (py "x") 1 0 true sample_world = Outcome (Return None) sample_world [].
Proof.
  apply (poll_result_without_attempts default_settings (py "hi") None (py "x")
           1 0 true sample_world).
  lia.
Defined.

Lemma poll_result_returns_finished_record_witness :
  res (poll_result (py "x") 1 3 true working_world)
  = Return (Some (VDict [(py "task_id", VStr (py "x"));
                         (py "status", VStr STATUS_COMPLETED);
                         (py "result", VStr (py "done"))])).
Proof.
  rewrite (poll_result_returns_finished_record 1 (py "x") 1 3 true working_world
             (VDict [(py "task_id", VStr (py "x"));
                     (py "status", VStr STATUS_COMPLETED);
                     (py "result", VStr (py "done"))]));
    [reflexivity | lia | lia | vm_compute; reflexivity | vm_compute; reflexivity
    | left; vm_compute; reflexivity].
Defined.

Lemma poll_result_raises_on_non_object_witness :
  exists message,
    poll_result (py "x") 1 3 true (stored_text_world (py "[1, 2]"))
    = Outcome (Raise (Exception (py "AttributeError") message))
              (stored_text_world (py "[1, 2]")) [CallGet (get_task_key (py "x"))].
Proof.
  apply (poll_result_raises_on_non_object (py "x") 1 3 true
           (stored_text_world (py "[1, 2]")) (VList [VInt 1; VInt 2]));
    [lia | vm_compute; reflexivity | intros d; discriminate].
Defined.

Lemma poll_result_times_out_while_open_witness :
  res (poll_result (py "x") 2 (Z.of_nat 2) true processing_world) = Return None /\
  redis_now (backend (final (poll_result (py "x") 2 (Z.of_nat 2) true
                               processing_world)))
  = (redis_now (backend processing_world) + Z.of_nat 2 * 2)%Z.
Proof.
  pose proof (poll_result_times_out_while_open 2 (py "x") 2 true
                processing_world) as H.
  cbv zeta in H. destruct H as (Hres & _ & _ & _ & Hnow).
  - lia.
  - vm_compute. reflexivity.
  - intros i b. reflexivity.
  - split; [exact Hres|exact Hnow].
Defined.

Lemma poll_result_negative_interval_witness :
  res (poll_result (py "x") (-1) 3 true processing_world)
  = Raise (Exception (py "ValueError") (py "sleep length must be non-negative")).
Proof.
  rewrite (poll_result_negative_interval (py "x") (-1) 3 true processing_world);
    [reflexivity | lia | lia | vm_compute; reflexivity].
Defined.

Lemma submit_and_wait_create_failure_witness :
  res (submit_and_wait default_settings (py "hi") None 1 3 channel_down_world)
  = Raise connection_lost.
Proof.
  pose proof (submit_and_wait_create_failure default_settings (py "hi") None
                1 3 channel_down_world connection_lost) as H.
  cbv zeta in H. destruct H as [H _].
  - vm_compute. reflexivity.
  - rewrite H. reflexivity.
Defined.

Lemma submit_and_wait_returns_finished_record_witness :
  res (submit_and_wait default_settings (py "hi") None 1 3 served_world)
  = Return (Some (VDict [(py "task_id", VStr (next_task_id sample_world));
                         (py "status", VStr STATUS_COMPLETED);
                         (py "result", VStr (py "done"))])).
Proof.
  rewrite (submit_and_wait_returns_finished_record default_settings 1 (py "hi")
             None 1 3 served_world (next_task_id sample_world)
             (VDict [(py "task_id", VStr (next_task_id sample_world));
                     (py "status", VStr STATUS_COMPLETED);
                     (py "result", VStr (py "done"))]));
    [reflexivity | lia | lia | vm_compute; reflexivity | vm_compute; reflexivity
    | vm_compute; reflexivity | left; vm_compute; reflexivity].
Defined.

Lemma json_loads_ignores_blanks_witness :
  json_loads ([32; 10] ++ json_dumps (VList [VInt 1; VStr (py "a")]) ++ [10])
  = Some (VList [VInt 1; VStr (py "a")]).
Proof.
  apply (JsonEdges.json_loads_ignores_blanks (VList [VInt 1; VStr (py "a")])
           [32; 10] [10]); reflexivity.
Defined.

Lemma json_dumps_printable_witness :
  forallb printable (json_dumps (VStr [233; 0x4f60; 0x1f600; 10])) = true.
Proof.
  apply (JsonEdges.json_dumps_printable (VStr [233; 0x4f60; 0x1f600; 10])).
  reflexivity.
Defined.

Lemma surrogate_pair_is_merged_witness :
  json_loads (json_dumps (VStr [0xd83d; 0xde00])) = Some (VStr [0x1f600]).
Proof.
  apply (JsonEdges.surrogate_pair_is_merged 0xd83d 0xde00); reflexivity.
Defined.

Lemma main_requests_one_task_per_prompt_witness :
  res (main_requests default_settings [py "one"; py "two"] sample_world)
  = Return (next_task_ids 2 sample_world) /\
  map message_id
    (published (backend (final (main_requests default_settings
                                  [py "one"; py "two"] sample_world))))
  = next_task_ids 2 sample_world.
Proof.
  pose proof (main_requests_one_task_per_prompt default_settings
                [py "one"; py "two"] sample_world eq_refl eq_refl eq_refl) as H.
  cbv zeta in H. destruct H as (Hres & _ & Hpub & _).
  split; [exact Hres|exact Hpub].
Defined.

Lemma test_multiple_requests_submits_then_polls_witness :
  exists submitting polling,
    trace (test_multiple_requests default_settings [py "one"; py "two"]
             sample_world) = submitting ++ polling /\
    length submitting = 4%nat /\
    Forall reads_and_sleeps polling.
Proof.
  pose proof (test_multiple_requests_submits_then_polls default_settings
                [py "one"; py "two"] sample_world eq_refl eq_refl eq_refl) as H.
  cbv zeta in H. destruct H as [(submitting & polling & Ht & Hl & _ & Hp) _].
  exists submitting, polling. split; [exact Ht|]. split; [exact Hl|exact Hp].
Defined.

Lemma poll_result_returns_only_finished_witness :
  status_field (VDict [(py "task_id", VStr (py "x"));
                       (py "status", VStr STATUS_COMPLETED);
                       (py "result", VStr (py "done"))])
  = Some (VStr STATUS_COMPLETED) \/
  status_field (VDict [(py "task_id", VStr (py "x"));
                       (py "status", VStr STATUS_COMPLETED);
                       (py "result", VStr (py "done"))])
  = Some (VStr STATUS_FAILED).
Proof.
  apply (poll_result_returns_only_finished (py "x") 1 3 true completed_world).
  vm_compute. reflexivity.
Defined.

(** ** Text after the document *)

(** X20. [json.loads] accepts nothing but blanks after the document: the
    text that [json.dumps] wrote, followed by any character that is not a
    blank and could not continue a number, is rejected, so that
    [get_task_status] reports such a stored value as an ERROR. *)
Theorem trailing_text_is_rejected task_id w v c rest :
  wf_value v = true ->
  Decoder.is_ws c = false ->
  number_end (c :: rest) = true ->
  redis_fault (backend w) = None ->
  redis_lookup (backend w) (get_task_key task_id)
  = Some (json_dumps v ++ c :: rest) ->
  json_loads (json_dumps v ++ c :: rest) = None /\
  exists message,
    res (get_task_status task_id w)
    = Return (store_error task_id (Exception (py "JSONDecodeError") message)).
Proof.
  intros Hwf Hc Hend Hr Hl.
  assert (Hnone : json_loads (json_dumps v ++ c :: rest) = None).
  { rewrite JsonEdges.json_loads_decode. unfold Decoder.decode, json_dumps.
    rewrite skip_ws_iterencode by assumption.
    rewrite (scan_once_iterencode v Hwf (c :: rest) _ Hend)
      by (rewrite length_app; lia).
    cbn [Decoder.skip_ws]. rewrite Hc. reflexivity. }
  split; [exact Hnone|]. eexists.
  rewrite get_task_status_outcome. cbv zeta. rewrite Hr, Hl, Hnone.
  destruct (iterencode_head v Hwf) as (c' & s' & E & _).
  unfold json_dumps. rewrite E. reflexivity.
Qed.

Lemma trailing_text_is_rejected_witness :
  exists message,
    res (get_task_status (py "x") (stored_text_world (py "{}x")))
    = Return (store_error (py "x") (Exception (py "JSONDecodeError") message)).
Proof.
  apply (trailing_text_is_rejected (py "x") (stored_text_world (py "{}x"))
           (VDict []) 120 []);
    [reflexivity | reflexivity | reflexivity | reflexivity
    | vm_compute; reflexivity].
Defined.

(** ** The shape of a poll *)

Lemma poll_loop_shape n task_id poll_interval : forall w,
  exists k tail,
    trace (poll_loop n task_id poll_interval w)
    = attempts k task_id poll_interval ++ tail /\
    (tail = [] /\ k = n \/
     tail = [CallGet (get_task_key task_id)] /\ (k < n)%nat \/
     tail = [CallGet (get_task_key task_id); CallSleep poll_interval] /\
     (k < n)%nat /\ (poll_interval < 0)%Z).
Proof.
  induction n as [|n IH]; intros w.
  - exists 0%nat, []. split; [reflexivity|]. left. split; reflexivity.
  - destruct (get_task_status_shape task_id w) as (v & E).
    assert (Hv : res (get_task_status task_id w) = Return v)
      by (rewrite E; reflexivity).
    rewrite (poll_loop_S _ _ _ _ _ Hv). cbv zeta.
    destruct (verdict v) as [r|].
    + exists 0%nat, [CallGet (get_task_key task_id)].
      split; [reflexivity|]. right. left. split; [reflexivity|lia].
    + rewrite time_sleep_trace. unfold time_sleep at 1.
      destruct (poll_interval <? 0)%Z eqn:Ei.
      * exists 0%nat, [CallGet (get_task_key task_id); CallSleep poll_interval].
        split; [reflexivity|]. right. right.
        split; [reflexivity|]. split; [lia|]. apply Z.ltb_lt, Ei.
      * cbn [res trace].
        destruct (IH (final (time_sleep poll_interval w))) as (k & tail & Ht & Hk).
        exists (S k), tail. rewrite Ht. split; [reflexivity|].
        destruct Hk as [[-> ->]|[[-> Hk]|(-> & Hk & Hneg)]].
        -- left. split; reflexivity.
        -- right. left. split; [reflexivity|lia].
        -- right. right. split; [reflexivity|]. split; [lia|exact Hneg].
Qed.

Lemma attempts_count k task_id poll_interval :
  length (List.filter (fun c => match c with CallGet _ => true | _ => false end)
            (attempts k task_id poll_interval)) = k /\
  length (List.filter (fun c => match c with CallSleep _ => true | _ => false end)
            (attempts k task_id poll_interval)) = k.
Proof.
  induction k as [|k [IH1 IH2]]; [split; reflexivity|].
  cbn [attempts List.filter length]. rewrite IH1, IH2. split; reflexivity.
Qed.

(** X21. In every world and for every argument, [poll_result] reads the
    store at most [max_attempts] times, reads and sleeps alternate beginning
    with a read, and the key read is always the key of the task: the calls
    are some number [k] of read-and-sleep pairs, followed by nothing when all
    [max_attempts] attempts were used, by one read when an attempt ended the
    loop, or by a read and the refused sleep when [poll_interval] is
    negative. *)
Theorem poll_result_calls task_id poll_interval max_attempts verbose w :
  let o := poll_result task_id poll_interval max_attempts verbose w in
  let reads :=
    length (List.filter (fun c => match c with CallGet _ => true | _ => false end)
              (trace o)) in
  let naps :=
    length (List.filter (fun c => match c with CallSleep _ => true | _ => false end)
              (trace o)) in
  (exists k tail,
     trace o = attempts k task_id poll_interval ++ tail /\
     (tail = [] /\ k = Z.to_nat max_attempts \/
      tail = [CallGet (get_task_key task_id)] /\ (k < Z.to_nat max_attempts)%nat \/
      tail = [CallGet (get_task_key task_id); CallSleep poll_interval] /\
      (k < Z.to_nat max_attempts)%nat /\ (poll_interval < 0)%Z)) /\
  (reads <= Z.to_nat max_attempts)%nat /\
  (naps <= reads)%nat.
Proof.
  cbv zeta. unfold poll_result.
  destruct (poll_loop_shape (Z.to_nat max_attempts) task_id poll_interval w)
    as (k & tail & Ht & Hk).
  split; [exists k, tail; split; assumption|].
  rewrite Ht, !List.filter_app, !length_app.
  destruct (attempts_count k task_id poll_interval) as [-> ->].
  destruct Hk as [[-> ->]|[[-> Hk]|(-> & Hk & _)]]; cbn [List.filter length]; lia.
Qed.
